(** * Release-note generation: a shallow embedding of
      [generate_release_notes.py] and [gh_releases.py]

    The two scripts page through the closed pull requests of a repository,
    read a ticket number and a categorised changelog out of every pull
    request description, and render the result as one Markdown document.

    Conventions of the embedding.
    - A Python [str] is a [string]; every [ascii] stands for one code point,
      so descriptions range over the code points below 256.  The character
      classes used by [str.splitlines], [str.strip] and [re] are written out
      for that range as CPython has them.
    - A Python exception is a constructor of [exn]; a function that can raise
      returns a [result].
    - The dictionary built by [extract_changelog] is kept as an association
      list, because the renderer walks it in insertion order.
    - A [datetime] is naive or aware.  The merge times are decoded with a
      format that has no time-zone directive and are naive; the cutoff is
      whatever [datetime] the caller passes, and comparing a naive merge
      time with an aware cutoff raises.
    - The remote end is a function from page numbers to responses; the
      fetching loop returns the list of pages it requested next to its
      outcome.  [while True] is unrolled with fuel.
    - [print] calls write to standard output only and are left out. *)

From Stdlib Require Import Strings.String Strings.Ascii Lists.List Bool.Bool.
From Stdlib Require Import Arith.Arith ZArith.ZArith micromega.Lia.
Import ListNotations.

Open Scope string_scope.
Open Scope list_scope.
Open Scope nat_scope.

(** ** Exceptions *)

Inductive exn : Type :=
| IndexError
| AttributeError
| TypeError
| KeyError
| ValueError
| JSONDecodeError.

Inductive result (A : Type) : Type :=
| Ok (a : A)
| Raise (e : exn).

Arguments Ok {A} a.
Arguments Raise {A} e.

Definition bind {A B : Type} (m : result A) (k : A -> result B) : result B :=
  match m with
  | Ok a => k a
  | Raise e => Raise e
  end.

Notation "x <- m ;; k" := (bind m (fun x => k))
  (at level 61, m at next level, right associativity).

(** ** The parts of [str] and [re] the scripts use *)

Module Py.

(** Code points below 256 at which [str.splitlines] breaks a line. *)
Definition is_linebreak (c : ascii) : bool :=
  let n := nat_of_ascii c in
  (10 <=? n) && (n <=? 13) || (28 <=? n) && (n <=? 30) || (n =? 133).

(** Code points below 256 that [str.strip] removes ([str.isspace]). *)
Definition is_space (c : ascii) : bool :=
  let n := nat_of_ascii c in
  (9 <=? n) && (n <=? 13) || (28 <=? n) && (n <=? 32)
  || (n =? 133) || (n =? 160).

(** Code points below 256 matched by [\w] in a [str] pattern. *)
Definition is_word (c : ascii) : bool :=
  let n := nat_of_ascii c in
  (48 <=? n) && (n <=? 57) || (65 <=? n) && (n <=? 90) || (n =? 95)
  || (97 <=? n) && (n <=? 122)
  || (n =? 170) || (n =? 178) || (n =? 179) || (n =? 181) || (n =? 185)
  || (n =? 186) || (188 <=? n) && (n <=? 190)
  || (192 <=? n) && (n <=? 214) || (216 <=? n) && (n <=? 246)
  || (248 <=? n).

(** [.] without [re.DOTALL]: everything but a line feed. *)
Definition is_dot (c : ascii) : bool := negb (nat_of_ascii c =? 10).

Definition is_cr (c : ascii) : bool := nat_of_ascii c =? 13.
Definition is_lf (c : ascii) : bool := nat_of_ascii c =? 10.

(** [str.splitlines()].  [cur] holds the characters of the line being read.
    A carriage return directly followed by a line feed is one break; a break
    at the very end of the text opens no further line. *)
Fixpoint splitlines_from (cur s : string) : list string :=
  match s with
  | EmptyString =>
      match cur with
      | EmptyString => []
      | _ => [cur]
      end
  | String c rest =>
      if is_linebreak c then
        cur ::
          match rest with
          | String d rest' =>
              if is_cr c && is_lf d
              then splitlines_from "" rest'
              else splitlines_from "" rest
          | EmptyString => []
          end
      else splitlines_from (cur ++ String c "") rest
  end.

Definition splitlines (s : string) : list string := splitlines_from "" s.

(** The longest prefix of [s] whose characters satisfy [p], and what is left
    once that prefix is dropped. *)
Fixpoint take_while (p : ascii -> bool) (s : string) : string :=
  match s with
  | EmptyString => ""
  | String c rest => if p c then String c (take_while p rest) else ""
  end.

Fixpoint drop_while (p : ascii -> bool) (s : string) : string :=
  match s with
  | EmptyString => ""
  | String c rest => if p c then drop_while p rest else s
  end.

Fixpoint rev_onto (s acc : string) : string :=
  match s with
  | EmptyString => acc
  | String c rest => rev_onto rest (String c acc)
  end.

Definition rev (s : string) : string := rev_onto s "".

(** [str.strip()] *)
Definition strip (s : string) : string :=
  rev (drop_while is_space (rev (drop_while is_space s))).

(** [s[n:]] *)
Fixpoint drop (n : nat) (s : string) : string :=
  match n, s with
  | O, _ => s
  | S n', String _ rest => drop n' rest
  | S _, EmptyString => ""
  end.

(** Truth value of a [str]. *)
Definition truthy (s : string) : bool :=
  match s with
  | EmptyString => false
  | String _ _ => true
  end.

(** [lines[i]] for a non-negative [i]. *)
Definition getitem {A : Type} (l : list A) (i : nat) : result A :=
  match nth_error l i with
  | Some x => Ok x
  | None => Raise IndexError
  end.

End Py.

(** ** The three compiled patterns

    Both scripts compile the same patterns and apply them with
    [Pattern.match], which anchors at the start of the line and accepts any
    remainder. *)

Module Regex.

(** [re.compile(r"### Ticket").match(line)]: is there a match? *)
Definition jira_ticket_section (line : string) : bool :=
  prefix "### Ticket" line.

(** [re.compile(r"### (\w+)").match(line)]: group 1 of the match, if any.
    The group is greedy and nothing follows it in the pattern. *)
Definition section_regex (line : string) : option string :=
  if prefix "### " line then
    match Py.take_while Py.is_word (Py.drop 4 line) with
    | EmptyString => None
    | w => Some w
    end
  else None.

(** [re.compile(r"- (.+)").match(line)]: group 1 of the match, if any. *)
Definition bullet_point_regex (line : string) : option string :=
  if prefix "- " line then
    match Py.take_while Py.is_dot (Py.drop 2 line) with
    | EmptyString => None
    | b => Some b
    end
  else None.

End Regex.

(** ** The changelog dictionary *)

Definition release_notes_t : Type := list (string * list string).

(** The keys in the order of the dictionary display of [extract_changelog]. *)
Definition categories : list string :=
  ["Added"; "Changed"; "Deprecated"; "Removed"; "Fixed"; "Security"].

Definition fresh_release_notes : release_notes_t :=
  map (fun k => (k, @nil string)) categories.

(** [k in d] *)
Fixpoint contains (k : string) (d : release_notes_t) : bool :=
  match d with
  | [] => false
  | (k', _) :: d' => if String.eqb k k' then true else contains k d'
  end.

(** [d[k]] read as an [option]. *)
Fixpoint lookup (k : string) (d : release_notes_t) : option (list string) :=
  match d with
  | [] => None
  | (k', v) :: d' => if String.eqb k k' then Some v else lookup k d'
  end.

(** [d[k].append(x)]; subscripting raises [KeyError] on a missing key. *)
Fixpoint append_at (k x : string) (d : release_notes_t)
  : result release_notes_t :=
  match d with
  | [] => Raise KeyError
  | (k', v) :: d' =>
      if String.eqb k k' then Ok ((k', v ++ [x]) :: d')
      else d'' <- append_at k x d' ;; Ok ((k', v) :: d'')
  end.

(** ** [generate_release_notes.py]: the two extractors *)

Module GenerateReleaseNotes.

(** The [for i, line in enumerate(lines)] loop of [extract_jira_ticket_no];
    [rest] is what is left to enumerate and [i] the index of its head. *)
Fixpoint ticket_loop (lines : list string) (i : nat) (rest : list string)
  : result string :=
  match rest with
  | [] => Ok ""
  | line :: rest' =>
      if Regex.jira_ticket_section line
      then Py.getitem lines (i + 1)
      else ticket_loop lines (S i) rest'
  end.

Definition extract_jira_ticket_no (pr_body : string) : result string :=
  let lines := Py.splitlines pr_body in
  ticket_loop lines 0 lines.

(** One iteration of the loop of [extract_changelog] on the pair
    [(current_section, release_notes)]. *)
Definition changelog_step (st : option string * release_notes_t)
  (line : string) : result (option string * release_notes_t) :=
  let '(current_section, release_notes) := st in
  match Regex.section_regex line with
  | Some word =>
      if contains word release_notes
      then Ok (Some word, release_notes)
      else Ok (None, release_notes)
  | None =>
      match Regex.bullet_point_regex line, current_section with
      | Some text, Some section =>
          if Py.truthy section then
            release_notes' <- append_at section (Py.strip text) release_notes ;;
            Ok (current_section, release_notes')
          else Ok st
      | _, _ => Ok st
      end
  end.

Fixpoint changelog_loop (lines : list string)
  (st : option string * release_notes_t)
  : result (option string * release_notes_t) :=
  match lines with
  | [] => Ok st
  | line :: lines' => st' <- changelog_step st line ;; changelog_loop lines' st'
  end.

Definition extract_changelog (pr_body : string) : result release_notes_t :=
  st <- changelog_loop (Py.splitlines pr_body) (None, fresh_release_notes) ;;
  Ok (snd st).

(** *** Timestamps

    A naive [datetime], one without time zone: its calendar and clock
    fields.  [datetime.strptime] builds such a one from the format
    ['%Y-%m-%dT%H:%M:%SZ'], which has no [%z] directive (the [Z] is a
    literal of the format).  Two of them compare field by field, most
    significant first. *)

Record naive_datetime : Type := mk_datetime {
  year : nat; month : nat; day : nat;
  hour : nat; minute : nat; second : nat; microsecond : nat
}.

Definition datetime_fields (d : naive_datetime) : list nat :=
  [year d; month d; day d; hour d; minute d; second d; microsecond d].

Fixpoint lex_compare (a b : list nat) : comparison :=
  match a, b with
  | [], [] => Eq
  | [], _ :: _ => Lt
  | _ :: _, [] => Gt
  | x :: a', y :: b' =>
      match Nat.compare x y with
      | Eq => lex_compare a' b'
      | c => c
      end
  end.

(** [a > b] for two naive ones *)
Definition datetime_gt (a b : naive_datetime) : bool :=
  match lex_compare (datetime_fields a) (datetime_fields b) with
  | Gt => true
  | _ => false
  end.

(** A [datetime] in general is naive or aware; an aware one has a [tzinfo],
    kept here as its offset from UTC in microseconds.
    [datetime.fromisoformat] builds an aware one from a text that ends with
    an offset such as [+02:00] and, from Python 3.11 on, from one that ends
    with [Z]; the timestamps of the API end with [Z]. *)
Inductive datetime : Type :=
| Naive (fields : naive_datetime)
| Aware (fields : naive_datetime) (utcoffset : Z).

(** [merged_at > since] for a naive [merged_at].  Against a naive [since]
    the fields are compared; against an aware one the comparison raises
    [TypeError] (can't compare offset-naive and offset-aware datetimes). *)
Definition later_than (merged_at : naive_datetime) (since : datetime)
  : result bool :=
  match since with
  | Naive fields => Ok (datetime_gt merged_at fields)
  | Aware _ _ => Raise TypeError
  end.

(** *** What the pulls endpoint sends *)

(** One element of the JSON array: the three members the script reads.
    [None] is JSON [null]. *)
Record PullRequest : Type := mk_pull {
  pr_title : string;
  pr_body : option string;
  pr_merged_at : option string
}.

(** A decoded body: the array of pull requests, or an object such as the
    error document [{"message": ...}] of the API. *)
Inductive json_value : Type :=
| JsonArray (items : list PullRequest)
| JsonObject (members : list (string * string)).

(** A response: its status and its body, [None] when the body is not JSON. *)
Record response : Type := mk_response {
  status_code : nat;
  body_json : option json_value
}.

(** [response.json()] *)
Definition response_json (r : response) : result json_value :=
  match body_json r with
  | Some v => Ok v
  | None => Raise JSONDecodeError
  end.

(** Truth value of the decoded body: an empty array or object is false. *)
Definition json_truthy (v : json_value) : bool :=
  match v with
  | JsonArray [] => false
  | JsonArray (_ :: _) => true
  | JsonObject [] => false
  | JsonObject (_ :: _) => true
  end.

(** One dictionary appended to [merged_prs]. *)
Record merged_pr : Type := mk_merged {
  title : string;
  release_notes : release_notes_t;
  ticket_no : string;
  merged_at : naive_datetime
}.

(** [pr['body'].splitlines()] on [None] raises [AttributeError]. *)
Definition on_body {A : Type} (f : string -> result A) (b : option string)
  : result A :=
  match b with
  | Some s => f s
  | None => Raise AttributeError
  end.

Section Library.

(** [datetime.strptime(_, '%Y-%m-%dT%H:%M:%SZ')] and
    [datetime.fromisoformat], the two decoders of the standard library. *)
Variable strptime : string -> result naive_datetime.
Variable fromisoformat : string -> result datetime.

(** [requests.get] on page [n] of the closed pull requests. *)
Variable requests_get : nat -> response.

(** [datetime.strptime(pr['merged_at'], ...) if pr['merged_at'] else None] *)
Definition parse_merged_at (pr : PullRequest)
  : result (option naive_datetime) :=
  match pr_merged_at pr with
  | Some s => if Py.truthy s then d <- strptime s ;; Ok (Some d) else Ok None
  | None => Ok None
  end.

(** The body of [for pr in prs]. *)
Definition visit_pr (since : datetime) (merged_prs : list merged_pr)
  (pr : PullRequest) : result (list merged_pr) :=
  m <- parse_merged_at pr ;;
  match m with
  | Some merged_at =>
      later <- later_than merged_at since ;;
      if later then
        notes <- on_body extract_changelog (pr_body pr) ;;
        ticket <- on_body extract_jira_ticket_no (pr_body pr) ;;
        Ok (merged_prs ++ [mk_merged (pr_title pr) notes ticket merged_at])
      else Ok merged_prs
  | None => Ok merged_prs
  end.

Fixpoint visit_prs (since : datetime) (prs : list PullRequest)
  (merged_prs : list merged_pr) : result (list merged_pr) :=
  match prs with
  | [] => Ok merged_prs
  | pr :: prs' =>
      merged_prs' <- visit_pr since merged_prs pr ;;
      visit_prs since prs' merged_prs'
  end.

(** [for pr in prs] on the decoded body.  Iterating an object yields its
    keys, and subscripting a key with ['merged_at'] raises [TypeError]. *)
Definition for_pr_in (since : datetime) (prs : json_value)
  (merged_prs : list merged_pr) : result (list merged_pr) :=
  match prs with
  | JsonArray items => visit_prs since items merged_prs
  | JsonObject [] => Ok merged_prs
  | JsonObject (_ :: _) => Raise TypeError
  end.

(** The [while True] loop.  The outcome is [None] when the fuel runs out,
    otherwise the pages requested so far and what the call returns or
    raises. *)
Fixpoint pages_loop (fuel : nat) (since : datetime) (page : nat)
  (merged_prs : list merged_pr) (requested : list nat)
  : option (list nat * result (list merged_pr)) :=
  match fuel with
  | O => None
  | S fuel' =>
      let requested' := requested ++ [page] in
      match response_json (requests_get page) with
      | Raise e => Some (requested', Raise e)
      | Ok prs =>
          if negb (json_truthy prs) then Some (requested', Ok merged_prs)
          else
            match for_pr_in since prs merged_prs with
            | Raise e => Some (requested', Raise e)
            | Ok merged_prs' =>
                pages_loop fuel' since (page + 1) merged_prs' requested'
            end
      end
  end.

Definition get_merged_prs (fuel : nat) (since : datetime)
  : option (list nat * result (list merged_pr)) :=
  pages_loop fuel since 1 [] [].

(** *** Rendering, the [for pr in merged_prs] loop of
    [generate_release_body] *)

Definition newline : string := String (ascii_of_nat 10) "".

Definition add_bullet_point (release_body bullet_point : string) : string :=
  release_body ++ "- " ++ bullet_point ++ newline.

Definition add_section (release_body : string)
  (item : string * list string) : string :=
  let '(section, bullet_points) := item in
  match bullet_points with
  | [] => release_body
  | _ :: _ =>
      fold_left add_bullet_point bullet_points
        (release_body ++ "### " ++ section ++ newline)%string
  end.

Definition add_pr (release_body : string) (pr : merged_pr) : string :=
  fold_left add_section (release_notes pr)
    (release_body ++ "## " ++ ticket_no pr ++ " - " ++ title pr ++ newline)%string.

Definition render_merged_prs (merged_prs : list merged_pr) : string :=
  fold_left add_pr merged_prs "".

(** [generate_release_body(since)]; [since] is a [str] or [None], and
    [datetime.fromisoformat] raises [TypeError] on anything but a [str].
    The token handed to [get_merged_prs] only goes into the request header,
    so it is part of [requests_get] here. *)
Definition generate_release_body (fuel : nat) (since : option string)
  : option (list nat * result string) :=
  match
    match since with
    | Some s => fromisoformat s
    | None => Raise TypeError
    end
  with
  | Raise e => Some ([], Raise e)
  | Ok since' =>
      match get_merged_prs fuel since' with
      | None => None
      | Some (requested, Raise e) => Some (requested, Raise e)
      | Some (requested, Ok merged_prs) =>
          Some (requested, Ok (render_merged_prs merged_prs))
      end
  end.

(** The previous release as [get_release_by_tag] returns it: a dictionary
    with a creation time, or [None]. *)
Record release : Type := mk_release {
  created_at : string
}.

(** Lines 231 and 232 of the script, run once the new release is found:
    [prev_release["published_at"]] is read first, which raises [TypeError]
    on [None]; then the body is generated from
    [prev_release["created_at"] if prev_release else None]. *)
Definition main_release_body (fuel : nat) (prev_release : option release)
  : option (list nat * result string) :=
  match prev_release with
  | None => Some ([], Raise TypeError)
  | Some _ =>
      generate_release_body fuel
        match prev_release with
        | Some r => Some (created_at r)
        | None => None
        end
  end.

End Library.

End GenerateReleaseNotes.

(** ** [gh_releases.py]: the ticket extractor of the older script *)

Module GhReleases.

(** A compiled pattern object is always true. *)
Definition pattern_truthy (jira_ticket_section : string -> bool) : bool := true.

(** Same loop, but the guard is [if jira_ticket_section:], the pattern
    object, and the match result goes unused. *)
Fixpoint ticket_loop (lines : list string) (i : nat) (rest : list string)
  : result string :=
  match rest with
  | [] => Ok ""
  | line :: rest' =>
      let section_match := Regex.jira_ticket_section line in
      if pattern_truthy Regex.jira_ticket_section
      then Py.getitem lines (i + 1)
      else ticket_loop lines (S i) rest'
  end.

Definition extract_jira_ticket_no (pr_body : string) : result string :=
  let lines := Py.splitlines pr_body in
  ticket_loop lines 0 lines.

End GhReleases.

(** ** [generate_release_notes.py]: the token, the update and the script *)

Module Publish.

Import GenerateReleaseNotes.

(** [TOKEN_REGEX], that is [Token:], one whitespace character and a group
    taking the rest of the line, tried at the start of [s]: group 1 of the
    match, if any. *)
Definition token_at (s : string) : option string :=
  if prefix "Token:" s then
    match Py.drop 6 s with
    | String c rest =>
        if Py.is_space c then Some (Py.take_while Py.is_dot rest) else None
    | EmptyString => None
    end
  else None.

(** [TOKEN_REGEX.search(output)]: the match at the leftmost position that
    has one. *)
Fixpoint token_regex_search (output : string) : option string :=
  match token_at output with
  | Some group => Some group
  | None =>
      match output with
      | String _ rest => token_regex_search rest
      | EmptyString => None
      end
  end.

(** What [subprocess.run] hands back for [gh auth status --show-token]; the
    error stream is taken as decoded text, and of the return code only
    whether it is zero matters. *)
Record completed_process : Type := mk_completed {
  returncode : nat;
  stderr : string
}.

(** The function returns a token or leaves through [exit(1)]. *)
Inductive token_outcome : Type :=
| Token (token : string)
| SystemExit (code : nat).

(** [os.environ[key]] read as an [option]. *)
Fixpoint environ_get (key : string) (environ : list (string * string))
  : option string :=
  match environ with
  | [] => None
  | (k, v) :: environ' =>
      if String.eqb key k then Some v else environ_get key environ'
  end.

(** [get_github_token()], given the environment, whether [shutil.which]
    finds [gh], and what running it gives. *)
Definition get_github_token (environ : list (string * string))
  (which_gh : bool) (gh_auth_status : completed_process) : token_outcome :=
  match environ_get "GITHUB_TOKEN" environ with
  | Some token => Token token
  | None =>
      if negb which_gh then SystemExit 1
      else
        let output := stderr gh_auth_status in
        if negb (returncode gh_auth_status =? 0) then SystemExit 1
        else
          match token_regex_search output with
          | None => SystemExit 1
          | Some group => Token group
          end
  end.





Section Script.

Variable strptime : string -> result naive_datetime.
Variable fromisoformat : string -> result datetime.
Variable requests_get : nat -> response.


End Script.

End Publish.

(** ** [gh_releases.py]: its fetcher

    The loop is that of the newer script; the dictionaries have no merge
    time and the ticket comes from the extractor of this file. *)

Module GhReleasesFetch.

Import GenerateReleaseNotes.

Record merged_pr : Type := mk_merged {
  title : string;
  release_notes : release_notes_t;
  ticket_no : string
}.

Section Library.

Variable strptime : string -> result naive_datetime.
Variable requests_get : nat -> response.

Definition visit_pr (since : datetime) (merged_prs : list merged_pr)
  (pr : PullRequest) : result (list merged_pr) :=
  m <- parse_merged_at strptime pr ;;
  match m with
  | Some merged_at =>
      later <- later_than merged_at since ;;
      if later then
        notes <- on_body extract_changelog (pr_body pr) ;;
        ticket <- on_body GhReleases.extract_jira_ticket_no (pr_body pr) ;;
        Ok (merged_prs ++ [mk_merged (pr_title pr) notes ticket])
      else Ok merged_prs
  | None => Ok merged_prs
  end.

Fixpoint visit_prs (since : datetime) (prs : list PullRequest)
  (merged_prs : list merged_pr) : result (list merged_pr) :=
  match prs with
  | [] => Ok merged_prs
  | pr :: prs' =>
      merged_prs' <- visit_pr since merged_prs pr ;;
      visit_prs since prs' merged_prs'
  end.

Definition for_pr_in (since : datetime) (prs : json_value)
  (merged_prs : list merged_pr) : result (list merged_pr) :=
  match prs with
  | JsonArray items => visit_prs since items merged_prs
  | JsonObject [] => Ok merged_prs
  | JsonObject (_ :: _) => Raise TypeError
  end.

Fixpoint pages_loop (fuel : nat) (since : datetime) (page : nat)
  (merged_prs : list merged_pr) (requested : list nat)
  : option (list nat * result (list merged_pr)) :=
  match fuel with
  | O => None
  | S fuel' =>
      let requested' := requested ++ [page] in
      match response_json (requests_get page) with
      | Raise e => Some (requested', Raise e)
      | Ok prs =>
          if negb (json_truthy prs) then Some (requested', Ok merged_prs)
          else
            match for_pr_in since prs merged_prs with
            | Raise e => Some (requested', Raise e)
            | Ok merged_prs' =>
                pages_loop fuel' since (page + 1) merged_prs' requested'
            end
      end
  end.

Definition get_merged_prs (fuel : nat) (since : datetime)
  : option (list nat * result (list merged_pr)) :=
  pages_loop fuel since 1 [] [].

End Library.

End GhReleasesFetch.

(** ** Worked data

    Decoders for the fixed-width timestamps of the API, standing for the two
    library decoders wherever an example is run, a remote end that serves a
    given list of pages, and the descriptions used in the examples. *)

Module Sample.

Import GenerateReleaseNotes.

Definition digit (c : ascii) : option nat :=
  let n := nat_of_ascii c in
  if (48 <=? n) && (n <=? 57) then Some (n - 48) else None.

(** Reads [k] decimal digits off the front of [s]. *)
Fixpoint digits (k : nat) (acc : nat) (s : string) : option (nat * string) :=
  match k with
  | O => Some (acc, s)
  | S k' =>
      match s with
      | String c rest =>
          match digit c with
          | Some d => digits k' (10 * acc + d) rest
          | None => None
          end
      | EmptyString => None
      end
  end.

Definition literal (lit s : string) : option string :=
  if prefix lit s then Some (Py.drop (String.length lit) s) else None.

Definition date_part (s : string) : option (nat * nat * nat * string) :=
  match digits 4 0 s with
  | Some (y, s1) =>
      match literal "-" s1 with
      | Some s2 =>
          match digits 2 0 s2 with
          | Some (m, s3) =>
              match literal "-" s3 with
              | Some s4 =>
                  match digits 2 0 s4 with
                  | Some (d, s5) => Some (y, m, d, s5)
                  | None => None
                  end
              | None => None
              end
          | None => None
          end
      | None => None
      end
  | None => None
  end.

Definition time_part (s : string) : option (nat * nat * nat * string) :=
  match digits 2 0 s with
  | Some (h, s1) =>
      match literal ":" s1 with
      | Some s2 =>
          match digits 2 0 s2 with
          | Some (m, s3) =>
              match literal ":" s3 with
              | Some s4 =>
                  match digits 2 0 s4 with
                  | Some (sec, s5) => Some (h, m, sec, s5)
                  | None => None
                  end
              | None => None
              end
          | None => None
          end
      | None => None
      end
  | None => None
  end.

(** ["2024-02-01T10:30:00Z"] *)
Definition strptime (s : string) : result naive_datetime :=
  match date_part s with
  | Some (y, m, d, s1) =>
      match literal "T" s1 with
      | Some s2 =>
          match time_part s2 with
          | Some (h, mi, sec, "Z") => Ok (mk_datetime y m d h mi sec 0)
          | _ => Raise ValueError
          end
      | None => Raise ValueError
      end
  | None => Raise ValueError
  end.

(** The offset at the end of a timestamp, in microseconds: [Z], [+02:00]
    or [-01:30]. *)
Definition offset_part (s : string) : option Z :=
  match s with
  | "Z" => Some 0%Z
  | String sign s1 =>
      match digits 2 0 s1 with
      | Some (h, s2) =>
          match literal ":" s2 with
          | Some s3 =>
              match digits 2 0 s3 with
              | Some (m, EmptyString) =>
                  let offset :=
                    ((Z.of_nat h * 3600 + Z.of_nat m * 60) * 1000000)%Z in
                  if ascii_dec sign "+" then Some offset
                  else if ascii_dec sign "-" then Some (- offset)%Z
                  else None
              | _ => None
              end
          | None => None
          end
      | None => None
      end
  | EmptyString => None
  end.

(** ["2024-01-15"] and ["2024-01-15T00:00:00"], which are naive, and
    ["2024-01-15T00:00:00Z"] and ["2024-01-15T00:00:00+02:00"], which are
    aware, as Python 3.11 reads them. *)
Definition fromisoformat (s : string) : result datetime :=
  match date_part s with
  | Some (y, m, d, EmptyString) => Ok (Naive (mk_datetime y m d 0 0 0 0))
  | Some (y, m, d, s1) =>
      match literal "T" s1 with
      | Some s2 =>
          match time_part s2 with
          | Some (h, mi, sec, EmptyString) =>
              Ok (Naive (mk_datetime y m d h mi sec 0))
          | Some (h, mi, sec, s3) =>
              match offset_part s3 with
              | Some utcoffset =>
                  Ok (Aware (mk_datetime y m d h mi sec 0) utcoffset)
              | None => Raise ValueError
              end
          | None => Raise ValueError
          end
      | None => Raise ValueError
      end
  | None => Raise ValueError
  end.

(** Text made of the given lines, each but the last followed by a line
    feed. *)
Fixpoint text (lines : list string) : string :=
  match lines with
  | [] => ""
  | [l] => l
  | l :: ls => l ++ newline ++ text ls
  end.

(** A remote end that answers page [n] with status 200 and the [n]-th of
    [pages], and with an empty array past the last one. *)
Definition serve (pages : list (list PullRequest)) (n : nat) : response :=
  mk_response 200 (Some (JsonArray (nth (n - 1) pages []))).

Definition pr1 : PullRequest :=
  mk_pull "Fix bug"
    (Some (text ["### Ticket"; "ABC-1"; "### Fixed"; "- bug one"]))
    (Some "2024-02-01T00:00:00Z").

Definition pr2 : PullRequest :=
  mk_pull "Add feature"
    (Some (text ["### Added"; "- feature one"]))
    (Some "2024-02-02T00:00:00Z").

(** Descriptions for the ticket extractor. *)
Definition body_longer_heading : string :=
  text ["### Tickets"; "none yet"].

Definition body_two_markers : string :=
  text ["### Ticket"; "OLD-1"; "### Ticket"; "JIRA-123"].

Definition body_marker_again_at_end : string :=
  text ["### Ticket"; "ABC"; "### Ticket"].

Definition body_ticket_second : string :=
  text ["Summary of the change"; "### Ticket"; "JIRA-123"; "### Fixed"].

Definition body_no_marker : string :=
  text ["Summary of the change"; "- a bullet"].

Definition body_marker_at_end : string :=
  text ["Summary of the change"; "### Ticket"].

(** A description with a heading outside the six labels. *)
Definition body_bogus : string :=
  text ["- early"; "### Added"; "- A"; "### Bogus"; "- X"; "- Y"].

(** The three pull requests of the filtering example, on one page. *)
Definition pr_january : PullRequest :=
  mk_pull "January" (Some "### Fixed") (Some "2024-01-01T00:00:00Z").

Definition pr_february : PullRequest :=
  mk_pull "February" (Some (text ["### Ticket"; "FEB-2"]))
    (Some "2024-02-01T00:00:00Z").

Definition pr_unmerged : PullRequest :=
  mk_pull "Unmerged" None None.

Definition mid_january : datetime := Naive (mk_datetime 2024 1 15 0 0 0 0).

(** The same day with the time zone UTC: what [datetime.fromisoformat]
    makes of ["2024-01-15T00:00:00Z"]. *)
Definition mid_january_utc : datetime :=
  Aware (mk_datetime 2024 1 15 0 0 0 0) 0.

(** What the fetcher builds from [pr1] and [pr2]. *)
Definition merged1 : merged_pr :=
  mk_merged "Fix bug"
    [("Added", []); ("Changed", []); ("Deprecated", []); ("Removed", []);
     ("Fixed", ["bug one"]); ("Security", [])]
    "ABC-1" (mk_datetime 2024 2 1 0 0 0 0).

Definition merged2 : merged_pr :=
  mk_merged "Add feature"
    [("Added", ["feature one"]); ("Changed", []); ("Deprecated", []);
     ("Removed", []); ("Fixed", []); ("Security", [])]
    "" (mk_datetime 2024 2 2 0 0 0 0).

(** The document the two pull requests compose to, and the one the
    specification prints for them. *)
Definition composed_lines : list string :=
  ["## ABC-1 - Fix bug"; "### Fixed"; "- bug one";
   "##  - Add feature"; "### Added"; "- feature one"].

Definition printed_lines : list string :=
  ["## ABC-1 - Fix bug"; "### Fixed"; "- bug one";
   "## - Add feature"; "### Added"; "- feature one"].

(** The lines, each followed by a line feed. *)
Definition terminated (lines : list string) : string :=
  text (lines ++ [""]).

(** A remote end whose second page fails with status 500 and an empty
    array for a body. *)
Definition failing_second_page (n : nat) : response :=
  if n =? 1 then mk_response 200 (Some (JsonArray [pr1]))
  else mk_response 500 (Some (JsonArray [])).

(** A remote end whose second page does not hold JSON. *)
Definition garbled_second_page (n : nat) : response :=
  if n =? 1 then mk_response 200 (Some (JsonArray [pr1]))
  else mk_response 502 None.

End Sample.

Import GenerateReleaseNotes.

(** ** Vocabulary of the statements *)

(** The ticket pattern does not match the line. *)
Definition unmarked (line : string) : Prop :=
  Regex.jira_ticket_section line = false.

(** The changelog scan as the specification words it: a heading names the
    current category when its word is one of the six labels and clears it
    otherwise; a bullet line gives its trimmed text to the current category,
    if there is one. *)

Definition known (word : string) : bool :=
  existsb (String.eqb word) categories.

Definition valid_heading (line : string) : bool :=
  match Regex.section_regex line with
  | Some word => known word
  | None => false
  end.

Definition next_section (current : option string) (line : string)
  : option string :=
  match Regex.section_regex line with
  | Some word => if known word then Some word else None
  | None => current
  end.

Definition line_bullet (current : option string) (line : string)
  : list (string * string) :=
  match Regex.section_regex line with
  | Some _ => []
  | None =>
      match Regex.bullet_point_regex line, current with
      | Some text, Some section => [(section, Py.strip text)]
      | _, _ => []
      end
  end.

(** The bullets of the lines in source order, each with its category. *)
Fixpoint attributed (current : option string) (lines : list string)
  : list (string * string) :=
  match lines with
  | [] => []
  | line :: lines' =>
      line_bullet current line ++ attributed (next_section current line) lines'
  end.

Definition bullets_in (category : string) (pairs : list (string * string))
  : list string :=
  map snd (filter (fun p => String.eqb (fst p) category) pairs).

Definition bullets_of (category : string) (lines : list string) : list string :=
  bullets_in category (attributed None lines).

(** The invariant of the scan: the six keys in order, and a current section
    that is one of them. *)
Definition scan_invariant (st : option string * release_notes_t) : Prop :=
  map fst (snd st) = categories
  /\ forall c, fst st = Some c -> known c = true.


(** What the fetcher keeps: the pull requests whose merge time is there and
    compares later than the cutoff. *)
Definition qualifies (strptime : string -> result naive_datetime)
  (since : datetime) (pr : PullRequest) : bool :=
  match parse_merged_at strptime pr with
  | Ok (Some merged) =>
      match later_than merged since with
      | Ok later => later
      | Raise _ => false
      end
  | _ => false
  end.

(** The dictionary [e] is the one built from the pull request [pr]. *)
Definition describes (strptime : string -> result naive_datetime)
  (pr : PullRequest) (e : merged_pr) : Prop :=
  title e = pr_title pr
  /\ on_body extract_changelog (pr_body pr) = Ok (release_notes e)
  /\ on_body extract_jira_ticket_no (pr_body pr) = Ok (ticket_no e)
  /\ parse_merged_at strptime pr = Ok (Some (merged_at e)).

(** Nothing raises while [pr] is visited: its merge time decodes and, if
    there is one, can be compared with the cutoff; and if [pr] is kept, it
    has a description whose ticket can be read. *)
Definition readable (strptime : string -> result naive_datetime)
  (since : datetime) (pr : PullRequest) : Prop :=
  (exists m, parse_merged_at strptime pr = Ok m)
  /\ (forall merged,
        parse_merged_at strptime pr = Ok (Some merged) ->
        exists later, later_than merged since = Ok later)
  /\ (qualifies strptime since pr = true ->
      exists body ticket,
        pr_body pr = Some body /\ extract_jira_ticket_no body = Ok ticket).

(** From page [page] on, the remote end sends the non-empty [pages] one
    after the other, under whatever status. *)
Fixpoint served (requests_get : nat -> response) (page : nat)
  (pages : list (list PullRequest)) : Prop :=
  match pages with
  | [] => True
  | items :: pages' =>
      items <> []
      /\ body_json (requests_get page) = Some (JsonArray items)
      /\ served requests_get (page + 1) pages'
  end.

(** The dictionary of [pr] has the six keys in their fixed order. *)
Definition six_keys (pr : merged_pr) : Prop :=
  map fst (release_notes pr) = categories.

(** The document as the specification words it. *)

Fixpoint joined (parts : list string) : string :=
  match parts with
  | [] => ""
  | part :: parts' => part ++ joined parts'
  end.

Definition bullet_lines (bullets : list string) : string :=
  joined (map (fun bullet => "- " ++ bullet ++ newline)%string bullets).

Definition category_text (notes : release_notes_t) (category : string)
  : string :=
  match lookup category notes with
  | Some (bullet :: bullets) =>
      "### " ++ category ++ newline ++ bullet_lines (bullet :: bullets)
  | _ => ""
  end.

Definition entry_text (pr : merged_pr) : string :=
  "## " ++ ticket_no pr ++ " - " ++ title pr ++ newline
  ++ joined (map (category_text (release_notes pr)) categories).

Definition document (merged_prs : list merged_pr) : string :=
  joined (map entry_text merged_prs).

(** More vocabulary: what a predicate says of every character of a text,
    the lines the changelog scan reacts to, and a text that does not go on
    with a word character. *)

Fixpoint string_forall (p : ascii -> bool) (s : string) : bool :=
  match s with
  | EmptyString => true
  | String c rest => p c && string_forall p rest
  end.

Definition no_break (c : ascii) : bool := negb (Py.is_linebreak c).

Definition relevant (line : string) : bool :=
  match Regex.section_regex line, Regex.bullet_point_regex line with
  | None, None => false
  | _, _ => true
  end.

Definition ends_word (suffix : string) : bool :=
  match suffix with
  | EmptyString => true
  | String c _ => negb (Py.is_word c)
  end.

(** More worked data. *)

Module Fixture.

Import GenerateReleaseNotes.

Definition body_heading_first : string :=
  Sample.text ["### Ticket: see tracker"; "JIRA-7"; "### Fixed"].

Definition body_padded_bullets : string :=
  Sample.text ["notes"; "### Changed: API"; "-   spaced out   "; "plain text";
               "- second"].

(** A remote end that ignores the page number and always sends the same
    pull request. *)
Definition same_page_forever (n : nat) : response :=
  mk_response 200 (Some (JsonArray [Sample.pr1])).

(** A remote end whose second answer is the error document of the API. *)
Definition rate_limited (n : nat) : response :=
  if n =? 1 then mk_response 200 (Some (JsonArray [Sample.pr1]))
  else mk_response 403
         (Some (JsonObject [("message", "API rate limit exceeded")])).

(** A merged pull request without description, and one whose description
    stops at the ticket heading. *)
Definition pr_no_description : PullRequest :=
  mk_pull "No description" None (Some "2024-03-01T00:00:00Z").

Definition pr_ticket_missing : PullRequest :=
  mk_pull "Ticket missing" (Some Sample.body_marker_at_end)
    (Some "2024-03-02T00:00:00Z").

Definition february : datetime := Naive (mk_datetime 2024 2 1 12 0 0 0).

(** What [gh auth status --show-token] prints on its error stream. *)
Definition gh_output : string :=
  Sample.terminated
    ["github.com"; "  - Token: gho_abc"; "  - Token scopes: repo"].

(** A merged pull request with a one-line description. *)
Definition pr_one_line : PullRequest :=
  mk_pull "One line" (Some "Bump the version") (Some "2024-03-03T00:00:00Z").


End Fixture.

(** * Properties *)

Lemma Ok_inj {A : Type} (a b : A) : Ok a = Ok b -> a = b.
Proof.
  intros H. now injection H.
Qed.

(** ** The ticket extractor *)

Section TicketFacts.

Lemma ticket_loop_skip (lines pre rest : list string) (i : nat) :
  Forall unmarked pre ->
  ticket_loop lines i (pre ++ rest) = ticket_loop lines (i + length pre) rest.
Proof.
  intros Hpre. revert i.
  induction Hpre as [|line pre Hline _ IH]; intros i; simpl.
  - now rewrite Nat.add_0_r.
  - rewrite Hline, IH. f_equal. lia.
Qed.

Lemma ticket_loop_unmarked (lines rest : list string) (i : nat) :
  Forall unmarked rest -> ticket_loop lines i rest = Ok "".
Proof.
  intros Hrest. revert i.
  induction Hrest as [|line rest Hline _ IH]; intros i; simpl.
  - reflexivity.
  - now rewrite Hline.
Qed.

Lemma getitem_after {A : Type} (pre : list A) (x y : A) (post : list A) :
  Py.getitem (pre ++ x :: y :: post) (length pre + 1) = Ok y.
Proof.
  unfold Py.getitem.
  rewrite nth_error_app2 by lia.
  replace (length pre + 1 - length pre) with 1 by lia.
  reflexivity.
Qed.

Lemma getitem_past_end {A : Type} (pre : list A) (x : A) :
  Py.getitem (pre ++ [x]) (length pre + 1) = Raise IndexError.
Proof.
  unfold Py.getitem.
  rewrite nth_error_app2 by lia.
  replace (length pre + 1 - length pre) with 1 by lia.
  reflexivity.
Qed.

(** C1, as the code has it.  The extractor looks for the first line that
    starts with [### Ticket]; when that line has a successor the successor is
    returned as it stands, and when no line starts with the marker the result
    is the empty string.  So a description whose first marked line is followed
    by [JIRA-123] yields exactly [JIRA-123]. *)
Theorem extract_jira_ticket_no_first_marker (pr_body : string) :
  (forall (pre : list string) (line next : string) (post : list string),
      Py.splitlines pr_body = pre ++ line :: next :: post ->
      Forall unmarked pre ->
      Regex.jira_ticket_section line = true ->
      extract_jira_ticket_no pr_body = Ok next)
  /\ (Forall unmarked (Py.splitlines pr_body) ->
      extract_jira_ticket_no pr_body = Ok "").
Proof.
  unfold extract_jira_ticket_no. split.
  - intros pre line next post Hlines Hpre Hline.
    rewrite Hlines at 2.
    rewrite ticket_loop_skip by assumption.
    simpl. rewrite Hline, Hlines.
    apply getitem_after.
  - intros Hall. now apply ticket_loop_unmarked.
Qed.

Lemma extract_jira_ticket_no_first_marker_witness :
  extract_jira_ticket_no Sample.body_ticket_second = Ok "JIRA-123"
  /\ extract_jira_ticket_no Sample.body_no_marker = Ok "".
Proof.
  split.
  - apply (proj1 (extract_jira_ticket_no_first_marker Sample.body_ticket_second)
             ["Summary of the change"] "### Ticket" "JIRA-123" ["### Fixed"]).
    + reflexivity.
    + repeat constructor.
    + reflexivity.
  - apply (proj2 (extract_jira_ticket_no_first_marker Sample.body_no_marker)).
    repeat constructor.
Defined.

(** C1 as worded fails twice.  A line that merely starts with the marker
    triggers the extractor although no line equals [### Ticket]; and a
    description that holds the lines [### Ticket] and [JIRA-123] one after the
    other yields something else when an earlier line carries the marker. *)
Lemma extract_jira_ticket_no_marker_not_exact :
  (~ In "### Ticket" (Py.splitlines Sample.body_longer_heading)
   /\ extract_jira_ticket_no Sample.body_longer_heading = Ok "none yet"
   /\ extract_jira_ticket_no Sample.body_longer_heading <> Ok "")
  /\ (Py.splitlines Sample.body_two_markers
       = ["### Ticket"; "OLD-1"] ++ ["### Ticket"; "JIRA-123"]
     /\ extract_jira_ticket_no Sample.body_two_markers = Ok "OLD-1"
     /\ extract_jira_ticket_no Sample.body_two_markers <> Ok "JIRA-123").
Proof.
  repeat split; try reflexivity; try discriminate.
  intros [H | [H | []]]; discriminate H.
Qed.

(** C2.  In [gh_releases.py] every description of two lines or more yields
    its second line, whatever the first line is: the guard of the loop is the
    pattern object, which is always true. *)
Theorem gh_extract_jira_ticket_no_second_line
  (pr_body first second : string) (rest : list string) :
  Py.splitlines pr_body = first :: second :: rest ->
  GhReleases.extract_jira_ticket_no pr_body = Ok second.
Proof.
  intros Hlines. unfold GhReleases.extract_jira_ticket_no.
  rewrite Hlines. reflexivity.
Qed.

Lemma gh_extract_jira_ticket_no_second_line_witness :
  GhReleases.extract_jira_ticket_no Sample.body_no_marker = Ok "- a bullet".
Proof.
  apply (gh_extract_jira_ticket_no_second_line Sample.body_no_marker
           "Summary of the change" "- a bullet" []).
  reflexivity.
Defined.

(** C10, as the code has it.  When the first line that starts with
    [### Ticket] is the last line of the description, [lines[i + 1]] is one
    past the end and [IndexError] is raised; the extractor of
    [gh_releases.py] raises it on every description of exactly one line. *)
Theorem extract_jira_ticket_no_marker_at_end (pr_body : string) :
  (forall (pre : list string) (line : string),
      Py.splitlines pr_body = pre ++ [line] ->
      Forall unmarked pre ->
      Regex.jira_ticket_section line = true ->
      extract_jira_ticket_no pr_body = Raise IndexError)
  /\ (forall line : string,
      Py.splitlines pr_body = [line] ->
      GhReleases.extract_jira_ticket_no pr_body = Raise IndexError).
Proof.
  split.
  - intros pre line Hlines Hpre Hline. unfold extract_jira_ticket_no.
    rewrite Hlines at 2.
    rewrite ticket_loop_skip by assumption.
    simpl. rewrite Hline, Hlines.
    apply getitem_past_end.
  - intros line Hlines. unfold GhReleases.extract_jira_ticket_no.
    rewrite Hlines. reflexivity.
Qed.

Lemma extract_jira_ticket_no_marker_at_end_witness :
  extract_jira_ticket_no Sample.body_marker_at_end = Raise IndexError
  /\ GhReleases.extract_jira_ticket_no "### Ticket" = Raise IndexError.
Proof.
  split.
  - apply (proj1 (extract_jira_ticket_no_marker_at_end Sample.body_marker_at_end)
             ["Summary of the change"] "### Ticket").
    + reflexivity.
    + repeat constructor.
    + reflexivity.
  - apply (proj2 (extract_jira_ticket_no_marker_at_end "### Ticket") "### Ticket").
    reflexivity.
Defined.

(** C10 as worded fails: the last line of this description matches the
    marker, yet an earlier line matches too and has a successor, which is
    returned. *)
Lemma extract_jira_ticket_no_marker_again_at_end :
  Py.splitlines Sample.body_marker_again_at_end
    = ["### Ticket"; "ABC"] ++ ["### Ticket"]
  /\ Regex.jira_ticket_section "### Ticket" = true
  /\ extract_jira_ticket_no Sample.body_marker_again_at_end = Ok "ABC"
  /\ extract_jira_ticket_no Sample.body_marker_again_at_end <> Raise IndexError.
Proof.
  repeat split; try reflexivity; discriminate.
Qed.

End TicketFacts.

(** ** The changelog extractor *)

Section ChangelogFacts.

Lemma contains_keys (word : string) (d : release_notes_t) :
  contains word d = existsb (String.eqb word) (map fst d).
Proof.
  induction d as [|[k v] d IH]; simpl.
  - reflexivity.
  - rewrite IH. now destruct (String.eqb word k).
Qed.

Lemma contains_known (word : string) (d : release_notes_t) :
  map fst d = categories -> contains word d = known word.
Proof.
  intros Hkeys. rewrite contains_keys, Hkeys. reflexivity.
Qed.

Lemma known_truthy (c : string) : known c = true -> Py.truthy c = true.
Proof.
  destruct c; [discriminate | reflexivity].
Qed.

Lemma append_at_spec (k x : string) (d : release_notes_t) :
  contains k d = true ->
  exists d',
    append_at k x d = Ok d'
    /\ map fst d' = map fst d
    /\ forall c,
        lookup c d' =
          option_map (fun v => v ++ bullets_in c [(k, x)]) (lookup c d).
Proof.
  induction d as [|[k' v] d IH]; simpl; intros Hin.
  - discriminate.
  - destruct (String.eqb k k') eqn:Hk.
    + apply String.eqb_eq in Hk. subst k'.
      eexists. split; [reflexivity|]. split; [reflexivity|].
      intros c. unfold bullets_in. simpl.
      rewrite (String.eqb_sym k c).
      destruct (String.eqb c k) eqn:Hc; simpl.
      * reflexivity.
      * destruct (lookup c d); simpl; [now rewrite app_nil_r | reflexivity].
    + destruct (IH Hin) as (d' & Happ & Hkeys & Hlook).
      rewrite Happ. simpl.
      eexists. split; [reflexivity|]. split; [simpl; now rewrite Hkeys|].
      intros c. simpl.
      destruct (String.eqb c k') eqn:Hc; simpl.
      * unfold bullets_in. simpl.
        apply String.eqb_eq in Hc. subst c.
        rewrite Hk. simpl. now rewrite app_nil_r.
      * apply Hlook.
Qed.

Lemma lookup_unchanged (c : string) (d : release_notes_t) :
  lookup c d = option_map (fun v => v ++ bullets_in c []) (lookup c d).
Proof.
  unfold bullets_in. simpl.
  destruct (lookup c d); simpl; [now rewrite app_nil_r | reflexivity].
Qed.

(** One line: the step never raises, keeps the invariant, moves the current
    section as [next_section] says and appends what [line_bullet] says. *)
Lemma changelog_step_spec (current : option string) (notes : release_notes_t)
  (line : string) :
  scan_invariant (current, notes) ->
  exists notes',
    changelog_step (current, notes) line = Ok (next_section current line, notes')
    /\ scan_invariant (next_section current line, notes')
    /\ forall c,
        lookup c notes' =
          option_map (fun v => v ++ bullets_in c (line_bullet current line))
            (lookup c notes).
Proof.
  intros [Hkeys Hcur]. simpl in Hkeys, Hcur.
  unfold changelog_step, next_section, line_bullet.
  destruct (Regex.section_regex line) as [word|] eqn:Hsec.
  - rewrite (contains_known _ _ Hkeys).
    exists notes. destruct (known word) eqn:Hknown.
    + split; [reflexivity|]. split.
      * split; [exact Hkeys|]. simpl. intros c Hc. now inversion Hc; subst.
      * intros c. apply lookup_unchanged.
    + split; [reflexivity|]. split.
      * split; [exact Hkeys|]. simpl. intros c Hc. discriminate.
      * intros c. apply lookup_unchanged.
  - destruct (Regex.bullet_point_regex line) as [text|] eqn:Hbul.
    + destruct current as [section|].
      * pose proof (Hcur section eq_refl) as Hknown.
        rewrite (known_truthy _ Hknown).
        destruct (append_at_spec section (Py.strip text) notes) as
          (notes' & Happ & Hkeys' & Hlook).
        { now rewrite (contains_known _ _ Hkeys). }
        rewrite Happ. simpl. exists notes'.
        split; [reflexivity|]. split.
        -- split; simpl; [now rewrite Hkeys'|exact Hcur].
        -- exact Hlook.
      * exists notes. split; [reflexivity|]. split.
        -- split; assumption.
        -- intros c. apply lookup_unchanged.
    + exists notes. split; [reflexivity|]. split.
      * split; assumption.
      * intros c. apply lookup_unchanged.
Qed.

Lemma bullets_in_app (c : string) (p q : list (string * string)) :
  bullets_in c (p ++ q) = bullets_in c p ++ bullets_in c q.
Proof.
  unfold bullets_in. now rewrite filter_app, map_app.
Qed.

(** The whole loop, from any state that satisfies the invariant. *)
Lemma changelog_loop_spec (lines : list string) :
  forall (current : option string) (notes : release_notes_t),
    scan_invariant (current, notes) ->
    exists current' notes',
      changelog_loop lines (current, notes) = Ok (current', notes')
      /\ scan_invariant (current', notes')
      /\ forall c,
          lookup c notes' =
            option_map (fun v => v ++ bullets_in c (attributed current lines))
              (lookup c notes).
Proof.
  induction lines as [|line lines IH]; intros current notes Hinv.
  - exists current, notes. split; [reflexivity|]. split; [exact Hinv|].
    intros c. apply lookup_unchanged.
  - destruct (changelog_step_spec current notes line Hinv) as
      (notes1 & Hstep & Hinv1 & Hlook1).
    destruct (IH _ _ Hinv1) as (current' & notes' & Hloop & Hinv' & Hlook').
    exists current', notes'. cbn [changelog_loop]. rewrite Hstep. cbn [bind].
    split; [exact Hloop|]. split; [exact Hinv'|].
    intros c. rewrite Hlook', Hlook1.
    destruct (lookup c notes) as [v|]; cbn [option_map attributed].
    + now rewrite bullets_in_app, app_assoc.
    + reflexivity.
Qed.

Lemma fresh_invariant : scan_invariant (None, fresh_release_notes).
Proof.
  split; [reflexivity|]. simpl. discriminate.
Qed.

Lemma lookup_fresh (c : string) :
  In c categories -> lookup c fresh_release_notes = Some [].
Proof.
  unfold categories. simpl.
  intros [H | [H | [H | [H | [H | [H | []]]]]]]; subst c; reflexivity.
Qed.

Lemma changelog_loop_app (a b : list string)
  (st : option string * release_notes_t) :
  changelog_loop (a ++ b) st =
    (st' <- changelog_loop a st ;; changelog_loop b st').
Proof.
  revert st. induction a as [|line a IH]; intros st; simpl.
  - reflexivity.
  - destruct (changelog_step st line) as [st1|e]; simpl.
    + apply IH.
    + reflexivity.
Qed.

(** While no category is current, lines other than a valid heading change
    nothing. *)
Lemma changelog_loop_inert (lines : list string) (notes : release_notes_t) :
  map fst notes = categories ->
  Forall (fun line => valid_heading line = false) lines ->
  changelog_loop lines (None, notes) = Ok (None, notes).
Proof.
  intros Hkeys Hall.
  induction Hall as [|line lines Hline _ IH]; simpl.
  - reflexivity.
  - unfold valid_heading in Hline.
    destruct (Regex.section_regex line) as [word|] eqn:Hsec.
    + rewrite (contains_known _ _ Hkeys), Hline. simpl. exact IH.
    + destruct (Regex.bullet_point_regex line); simpl; exact IH.
Qed.

Lemma NoDup_categories : NoDup categories.
Proof.
  unfold categories.
  repeat (constructor; [simpl; intuition discriminate|]).
  constructor.
Qed.

(** A dictionary is fixed by its keys, when they differ from one another,
    and by what each of them looks up. *)
Lemma lookup_determines (f : string -> list string) (d : release_notes_t) :
  forall keys : list string,
    map fst d = keys ->
    NoDup keys ->
    (forall c, In c keys -> lookup c d = Some (f c)) ->
    d = map (fun c => (c, f c)) keys.
Proof.
  induction d as [|[k v] d IH]; intros keys Hkeys Hnodup Hlook;
    simpl in Hkeys; subst keys.
  - reflexivity.
  - inversion Hnodup as [|? ? Hnotin Hnodup']; subst.
    simpl. f_equal.
    + pose proof (Hlook k (or_introl eq_refl)) as Hk.
      simpl in Hk. rewrite String.eqb_refl in Hk. now inversion Hk.
    + apply IH; [reflexivity | assumption |].
      intros c Hc. specialize (Hlook c (or_intror Hc)).
      simpl in Hlook.
      destruct (String.eqb c k) eqn:Hck; [|exact Hlook].
      apply String.eqb_eq in Hck. subst c. contradiction.
Qed.

(** The extractor in closed form: it never raises, and each of the six keys
    holds the bullets attributed to it, in source order. *)
Lemma extract_changelog_closed_form (pr_body : string) :
  extract_changelog pr_body =
    Ok (map (fun c => (c, bullets_of c (Py.splitlines pr_body))) categories).
Proof.
  unfold extract_changelog.
  destruct (changelog_loop_spec (Py.splitlines pr_body) None
              fresh_release_notes fresh_invariant)
    as (current' & notes' & Hloop & [Hkeys _] & Hlook).
  rewrite Hloop. cbn [bind snd]. f_equal.
  apply lookup_determines.
  - exact Hkeys.
  - exact NoDup_categories.
  - intros c Hc. rewrite Hlook, (lookup_fresh c Hc). reflexivity.
Qed.



(** Where the bullets of the scan come from. *)
Lemma attributed_origin (lines : list string) :
  forall (current : option string) (c x : string),
    In (c, x) (attributed current lines) ->
    exists line text,
      In line lines
      /\ Regex.bullet_point_regex line = Some text
      /\ x = Py.strip text.
Proof.
  induction lines as [|line lines IH]; intros current c x Hin; simpl in Hin.
  - contradiction.
  - apply in_app_or in Hin. destruct Hin as [Hin | Hin].
    + unfold line_bullet in Hin.
      destruct (Regex.section_regex line); [contradiction|].
      destruct (Regex.bullet_point_regex line) as [text|] eqn:Hbul;
        [|contradiction].
      destruct current as [section|]; [|contradiction].
      destruct Hin as [Heq | []]. inversion Heq; subst.
      exists line, text. simpl. auto.
    + destruct (IH _ _ _ Hin) as (l & text & Hl & Hbul & Hx).
      exists l, text. simpl. auto.
Qed.

Lemma bullets_in_origin (c x : string) (pairs : list (string * string)) :
  In x (bullets_in c pairs) -> In (c, x) pairs.
Proof.
  unfold bullets_in. intros Hin.
  apply in_map_iff in Hin. destruct Hin as ([c' x'] & Hsnd & Hin).
  apply filter_In in Hin. destruct Hin as [Hin Hc].
  simpl in Hsnd, Hc. apply String.eqb_eq in Hc. now subst.
Qed.

Lemma attributed_app (a b : list string) :
  forall current : option string,
    attributed current (a ++ b) =
      attributed current a ++ attributed (fold_left next_section a current) b.
Proof.
  induction a as [|line a IH]; intros current; simpl.
  - reflexivity.
  - now rewrite IH, app_assoc.
Qed.

(** A line that is no heading, right after a heading outside the six labels,
    adds nothing to the scan. *)
Lemma attributed_dropped_line (pre post : list string)
  (heading bullet word : string) (current : option string) :
  Regex.section_regex heading = Some word ->
  known word = false ->
  Regex.section_regex bullet = None ->
  attributed current (pre ++ heading :: bullet :: post) =
    attributed current (pre ++ heading :: post).
Proof.
  intros Hhead Hword Hbul.
  rewrite !attributed_app. f_equal.
  cbn [attributed]. f_equal.
  assert (Hnone : forall c, next_section c heading = None).
  { intros c. unfold next_section. now rewrite Hhead, Hword. }
  rewrite Hnone.
  unfold line_bullet, next_section. rewrite Hbul.
  now destruct (Regex.bullet_point_regex bullet).
Qed.

(** The closed form, on the lines. *)
Lemma changelog_lines_closed_form (lines : list string) :
  (st <- changelog_loop lines (None, fresh_release_notes) ;; Ok (snd st)) =
    Ok (map (fun c => (c, bullets_of c lines)) categories).
Proof.
  destruct (changelog_loop_spec lines None fresh_release_notes fresh_invariant)
    as (current' & notes' & Hloop & [Hkeys _] & Hlook).
  rewrite Hloop. cbn [bind snd]. f_equal.
  apply lookup_determines.
  - exact Hkeys.
  - exact NoDup_categories.
  - intros c Hc. rewrite Hlook, (lookup_fresh c Hc). reflexivity.
Qed.

(** A line that starts like a heading is no bullet line. *)
Lemma heading_prefix_no_bullet (line : string) :
  prefix "### " line = true -> Regex.bullet_point_regex line = None.
Proof.
  unfold Regex.bullet_point_regex.
  destruct line as [|c line]; cbn [prefix]; [discriminate|].
  destruct (ascii_dec "#" c) as [Hc|Hc]; [|discriminate].
  subst c. intros _.
  destruct (ascii_dec "-" "#") as [Habs|_]; [discriminate Habs | reflexivity].
Qed.

(** C7.  A heading sets the current section to its captured word when the
    word is one of the six labels and to none otherwise (a line that starts
    with [### ] but captures no word changes nothing); while the section is
    none, every line but a valid heading leaves the dictionary alone, which
    covers the bullets ahead of the first heading too.  So the bullet under
    [### Bogus] is dropped: the result is that of the description without the
    bullet line, and the bullet text is in no category unless another bullet
    line of the description carries it. *)
Theorem extract_changelog_unknown_heading (pr_body : string) :
  (forall (current : option string) (notes : release_notes_t)
          (line word : string),
      map fst notes = categories ->
      Regex.section_regex line = Some word ->
      changelog_step (current, notes) line =
        Ok (if known word then Some word else None, notes))
  /\ (forall (st : option string * release_notes_t) (line : string),
      prefix "### " line = true ->
      Regex.section_regex line = None ->
      changelog_step st line = Ok st)
  /\ (forall (notes : release_notes_t) (lines : list string),
      map fst notes = categories ->
      Forall (fun line => valid_heading line = false) lines ->
      changelog_loop lines (None, notes) = Ok (None, notes))
  /\ (forall run rest : list string,
      Py.splitlines pr_body = run ++ rest ->
      Forall (fun line => valid_heading line = false) run ->
      extract_changelog pr_body =
        (st <- changelog_loop rest (None, fresh_release_notes) ;; Ok (snd st)))
  /\ (forall (pre post : list string) (X : string),
      Py.splitlines pr_body = pre ++ "### Bogus" :: ("- " ++ X)%string :: post ->
      extract_changelog pr_body =
        (st <- changelog_loop (pre ++ "### Bogus" :: post)
                 (None, fresh_release_notes) ;;
         Ok (snd st))
      /\ ((forall line text : string,
             In line (pre ++ post) ->
             Regex.bullet_point_regex line = Some text ->
             Py.strip text <> Py.strip X) ->
          forall (notes : release_notes_t) (c : string) (bullets : list string),
            extract_changelog pr_body = Ok notes ->
            In (c, bullets) notes ->
            ~ In (Py.strip X) bullets)).
Proof.
  split; [|split; [|split; [|split]]].
  - intros current notes line word Hkeys Hsec.
    unfold changelog_step. rewrite Hsec, (contains_known _ _ Hkeys).
    now destruct (known word).
  - intros [current notes] line Hprefix Hsec.
    unfold changelog_step. rewrite Hsec.
    now rewrite (heading_prefix_no_bullet line Hprefix).
  - intros notes lines. apply changelog_loop_inert.
  - intros run rest Hlines Hrun.
    unfold extract_changelog.
    rewrite Hlines, changelog_loop_app.
    rewrite (changelog_loop_inert run fresh_release_notes eq_refl Hrun).
    reflexivity.
  - intros pre post X Hlines.
    assert (Hdrop : forall current,
               attributed current (Py.splitlines pr_body) =
                 attributed current (pre ++ "### Bogus" :: post)).
    { intros current. rewrite Hlines.
      apply attributed_dropped_line with (word := "Bogus"); reflexivity. }
    split.
    + rewrite changelog_lines_closed_form, extract_changelog_closed_form.
      unfold bullets_of. now rewrite Hdrop.
    + intros Hother notes c bullets Hrun Hin Hx.
      rewrite extract_changelog_closed_form in Hrun.
      apply Ok_inj in Hrun. subst notes.
      apply in_map_iff in Hin. destruct Hin as (c' & Heq & _).
      inversion Heq; subst c' bullets.
      unfold bullets_of in Hx. rewrite Hdrop in Hx.
      apply bullets_in_origin, attributed_origin in Hx.
      destruct Hx as (line & text & Hline & Hbul & Hstrip).
      apply in_app_or in Hline. destruct Hline as [Hline | [Hline | Hline]].
      * apply (Hother line text); [apply in_or_app; now left | exact Hbul |].
        now symmetry.
      * subst line. discriminate Hbul.
      * apply (Hother line text); [apply in_or_app; now right | exact Hbul |].
        now symmetry.
Qed.

Lemma extract_changelog_unknown_heading_witness :
  extract_changelog Sample.body_bogus =
    Ok [("Added", ["A"]); ("Changed", []); ("Deprecated", []);
        ("Removed", []); ("Fixed", []); ("Security", [])].
Proof.
  destruct (extract_changelog_unknown_heading Sample.body_bogus)
    as (_ & _ & _ & _ & Hbogus).
  destruct (Hbogus ["- early"; "### Added"; "- A"] ["- Y"] "X" eq_refl)
    as [Hsame _].
  rewrite Hsame. reflexivity.
Defined.


End ChangelogFacts.

(** ** The fetcher *)

Section FetchFacts.

Variable strptime : string -> result naive_datetime.

Lemma visit_pr_kept (since : datetime) (acc : list merged_pr)
  (pr : PullRequest) (out : list merged_pr) :
  visit_pr strptime since acc pr = Ok out ->
  (qualifies strptime since pr = true
   /\ exists e, describes strptime pr e /\ out = acc ++ [e])
  \/ (qualifies strptime since pr = false /\ out = acc).
Proof.
  unfold visit_pr, qualifies, describes.
  destruct (parse_merged_at strptime pr) as [[merged|]|e]; simpl;
    try discriminate.
  - destruct (later_than merged since) as [[|]|e]; simpl; try discriminate.
    + destruct (on_body extract_changelog (pr_body pr)) as [notes|];
        simpl; try discriminate.
      destruct (on_body extract_jira_ticket_no (pr_body pr)) as [ticket|];
        simpl; try discriminate.
      intros H. apply Ok_inj in H. subst out. left. split; [reflexivity|].
      eexists. split; [|reflexivity]. simpl. auto.
    + intros H. apply Ok_inj in H. right. auto.
  - intros H. apply Ok_inj in H. right. auto.
Qed.

Lemma visit_pr_readable (since : datetime) (acc : list merged_pr)
  (pr : PullRequest) :
  readable strptime since pr ->
  exists out, visit_pr strptime since acc pr = Ok out.
Proof.
  unfold readable, visit_pr, qualifies.
  intros ([m Hm] & Hcompared & Hkept). rewrite Hm in *. simpl.
  destruct m as [merged|]; [|eauto].
  destruct (Hcompared merged eq_refl) as [later Hlater].
  rewrite Hlater in *. simpl.
  destruct later; [|eauto].
  destruct (Hkept eq_refl) as (body & ticket & Hbody & Hticket).
  rewrite Hbody. simpl.
  rewrite extract_changelog_closed_form. simpl.
  rewrite Hticket. simpl. eauto.
Qed.

Lemma visit_prs_app (since : datetime) (a b : list PullRequest) :
  forall acc : list merged_pr,
    visit_prs strptime since (a ++ b) acc =
      (acc' <- visit_prs strptime since a acc ;;
       visit_prs strptime since b acc').
Proof.
  induction a as [|pr a IH]; intros acc; simpl.
  - reflexivity.
  - destruct (visit_pr strptime since acc pr); simpl; [apply IH | reflexivity].
Qed.

(** What one pass over a list of pull requests appends: one dictionary for
    each pull request that qualifies, in the order of the list. *)
Lemma visit_prs_kept (since : datetime) (prs : list PullRequest) :
  forall acc out : list merged_pr,
    visit_prs strptime since prs acc = Ok out ->
    exists es,
      out = acc ++ es
      /\ Forall2 (describes strptime) (filter (qualifies strptime since) prs) es.
Proof.
  induction prs as [|pr prs IH]; intros acc out; simpl.
  - intros H. apply Ok_inj in H. subst out.
    exists []. split; [now rewrite app_nil_r | constructor].
  - destruct (visit_pr strptime since acc pr) as [acc1|e] eqn:Hvisit; simpl;
      [|discriminate].
    intros Hrest. destruct (IH _ _ Hrest) as (es & Hout & Hall).
    destruct (visit_pr_kept _ _ _ _ Hvisit)
      as [(Hq & e & Hdesc & Hacc) | (Hq & Hacc)]; rewrite Hq; subst acc1.
    + exists (e :: es). split.
      * rewrite Hout, <- app_assoc. reflexivity.
      * now constructor.
    + exists es. now split.
Qed.

Lemma visit_prs_readable (since : datetime) (prs : list PullRequest) :
  Forall (readable strptime since) prs ->
  forall acc : list merged_pr,
    exists out, visit_prs strptime since prs acc = Ok out.
Proof.
  induction 1 as [|pr prs Hpr _ IH]; intros acc; simpl.
  - eauto.
  - destruct (visit_pr_readable since acc pr Hpr) as [acc1 Hvisit].
    rewrite Hvisit. simpl. apply IH.
Qed.

Lemma lex_compare_refl (a : list nat) : lex_compare a a = Eq.
Proof.
  induction a as [|x a IH]; simpl; [reflexivity|].
  now rewrite Nat.compare_refl.
Qed.

(** [a > a] is false: the comparison with the cutoff is strict. *)
Lemma datetime_gt_irrefl (a : naive_datetime) : datetime_gt a a = false.
Proof.
  unfold datetime_gt. now rewrite lex_compare_refl.
Qed.

Variable requests_get : nat -> response.

Lemma pages_loop_stop (fuel : nat) (since : datetime) (page : nat)
  (acc : list merged_pr) (req : list nat) (v : json_value) :
  body_json (requests_get page) = Some v ->
  json_truthy v = false ->
  pages_loop strptime requests_get (S fuel) since page acc req =
    Some (req ++ [page], Ok acc).
Proof.
  intros Hbody Hfalse. simpl. unfold response_json.
  now rewrite Hbody, Hfalse.
Qed.

Lemma pages_loop_step (fuel : nat) (since : datetime) (page : nat)
  (acc : list merged_pr) (req : list nat) (items : list PullRequest) :
  items <> [] ->
  body_json (requests_get page) = Some (JsonArray items) ->
  pages_loop strptime requests_get (S fuel) since page acc req =
    match visit_prs strptime since items acc with
    | Ok acc' =>
        pages_loop strptime requests_get fuel since (page + 1) acc'
          (req ++ [page])
    | Raise e => Some (req ++ [page], Raise e)
    end.
Proof.
  intros Hitems Hbody. simpl. unfold response_json. rewrite Hbody.
  destruct items as [|pr items]; [contradiction|]. simpl.
  now destruct (visit_pr strptime since acc pr).
Qed.

(** Paging through [pages] amounts to one pass over their concatenation. *)
Lemma pages_loop_run (since : datetime) (fuel : nat)
  (pages : list (list PullRequest)) :
  forall (page : nat) (acc : list merged_pr) (req : list nat),
    served requests_get page pages ->
    match visit_prs strptime since (concat pages) acc with
    | Ok acc' =>
        pages_loop strptime requests_get (length pages + fuel) since page
          acc req =
        pages_loop strptime requests_get fuel since (page + length pages)
          acc' (req ++ seq page (length pages))
    | Raise e =>
        exists k,
          k < length pages
          /\ pages_loop strptime requests_get (length pages + fuel) since page
               acc req =
             Some (req ++ seq page (S k), Raise e)
    end.
Proof.
  induction pages as [|items pages IH]; intros page acc req Hserved.
  - simpl. now rewrite Nat.add_0_r, app_nil_r.
  - destruct Hserved as (Hitems & Hbody & Hserved).
    cbn [concat length Nat.add].
    rewrite visit_prs_app, (pages_loop_step _ _ _ _ _ _ Hitems Hbody).
    destruct (visit_prs strptime since items acc) as [acc1|e]; cbn [bind].
    + specialize (IH (page + 1) acc1 (req ++ [page]) Hserved).
      destruct (visit_prs strptime since (concat pages) acc1) as [acc2|e].
      * rewrite IH. f_equal; [lia|].
        rewrite <- app_assoc. cbn [seq app]. now rewrite Nat.add_1_r.
      * destruct IH as (k & Hk & Hloop). exists (S k). split; [lia|].
        rewrite Hloop, <- app_assoc.
        cbn [seq app]. now rewrite Nat.add_1_r.
    + exists 0. split; [lia | reflexivity].
Qed.

(** The remote end sends [pages] and then something empty: the call returns
    what one pass over the concatenation returns, and asks for no page past
    the empty one. *)
Lemma get_merged_prs_paged (since : datetime) (fuel : nat)
  (pages : list (list PullRequest)) (v : json_value) :
  served requests_get 1 pages ->
  body_json (requests_get (1 + length pages)) = Some v ->
  json_truthy v = false ->
  length pages < fuel ->
  exists requested,
    get_merged_prs strptime requests_get fuel since =
      Some (requested, visit_prs strptime since (concat pages) [])
    /\ (forall p, In p requested -> 1 <= p <= 1 + length pages)
    /\ (forall merged,
          visit_prs strptime since (concat pages) [] = Ok merged ->
          requested = seq 1 (S (length pages))).
Proof.
  intros Hserved Hbody Hfalse Hfuel. unfold get_merged_prs.
  replace fuel with (length pages + S (fuel - length pages - 1)) by lia.
  pose proof (pages_loop_run since (S (fuel - length pages - 1)) pages
                1 [] [] Hserved) as Hrun.
  destruct (visit_prs strptime since (concat pages) []) as [merged|e].
  - rewrite Hrun, (pages_loop_stop _ _ _ _ _ v Hbody Hfalse).
    cbn [app].
    assert (Hseq : seq 1 (length pages) ++ [1 + length pages]
                   = seq 1 (S (length pages))).
    { now rewrite seq_S. }
    rewrite Hseq. eexists. split; [reflexivity|]. split.
    + intros p Hp. apply in_seq in Hp. lia.
    + reflexivity.
  - destruct Hrun as (k & Hk & Hloop). rewrite Hloop. cbn [app].
    eexists. split; [reflexivity|]. split.
    + intros p Hp. apply in_seq in Hp. lia.
    + discriminate.
Qed.

Lemma pages_loop_garbled (fuel : nat) (since : datetime) (page : nat)
  (acc : list merged_pr) (req : list nat) :
  body_json (requests_get page) = None ->
  pages_loop strptime requests_get (S fuel) since page acc req =
    Some (req ++ [page], Raise JSONDecodeError).
Proof.
  intros Hbody. simpl. unfold response_json. now rewrite Hbody.
Qed.

(** The loop reads the bodies only. *)
Lemma pages_loop_status_blind (requests_get' : nat -> response)
  (since : datetime) :
  (forall n, body_json (requests_get n) = body_json (requests_get' n)) ->
  forall (fuel page : nat) (acc : list merged_pr) (req : list nat),
    pages_loop strptime requests_get fuel since page acc req =
    pages_loop strptime requests_get' fuel since page acc req.
Proof.
  intros Hsame. induction fuel as [|fuel IH]; intros page acc req; simpl.
  - reflexivity.
  - unfold response_json. rewrite <- Hsame.
    destruct (body_json (requests_get page)) as [v|]; [|reflexivity].
    destruct (json_truthy v); simpl; [|reflexivity].
    destruct (for_pr_in strptime since v acc); [apply IH | reflexivity].
Qed.

(** Whatever the loop requested beyond [req], a page among it that did not
    decode ended the call with [JSONDecodeError]. *)
Lemma pages_loop_undecodable (since : datetime) :
  forall (fuel page : nat) (acc : list merged_pr) (req log : list nat)
         (out : result (list merged_pr)),
    pages_loop strptime requests_get fuel since page acc req = Some (log, out) ->
    exists extra,
      log = req ++ extra
      /\ forall n,
          In n extra ->
          body_json (requests_get n) = None ->
          out = Raise JSONDecodeError.
Proof.
  induction fuel as [|fuel IH]; intros page acc req log out; simpl.
  - discriminate.
  - unfold response_json.
    destruct (body_json (requests_get page)) as [v|] eqn:Hbody.
    + destruct (json_truthy v); simpl.
      * destruct (for_pr_in strptime since v acc) as [acc'|e].
        -- intros Hloop. destruct (IH _ _ _ _ _ Hloop) as (extra & Hlog & Hex).
           exists (page :: extra). split.
           ++ rewrite Hlog, <- app_assoc. reflexivity.
           ++ intros n [Hn | Hn] Hnone.
              ** subst n. congruence.
              ** now apply (Hex n).
        -- intros H. inversion H; subst. exists [page]. split; [reflexivity|].
           intros n [Hn | []] Hnone. subst n. congruence.
      * intros H. inversion H; subst. exists [page]. split; [reflexivity|].
        intros n [Hn | []] Hnone. subst n. congruence.
    + intros H. inversion H; subst. exists [page]. split; [reflexivity|].
      reflexivity.
Qed.

(** With an empty body at page [stop], the loop ends at that page or
    before. *)
Lemma pages_loop_terminates (since : datetime) (stop : nat) (v : json_value) :
  body_json (requests_get stop) = Some v ->
  json_truthy v = false ->
  forall (k page fuel : nat) (acc : list merged_pr) (req : list nat),
    page + k = stop ->
    k < fuel ->
    exists j out,
      j <= k
      /\ pages_loop strptime requests_get fuel since page acc req =
           Some (req ++ seq page (S j), out).
Proof.
  intros Hbody Hfalse.
  induction k as [|k IH]; intros page fuel acc req Hstop Hfuel;
    destruct fuel as [|fuel]; try lia.
  - rewrite Nat.add_0_r in Hstop. subst page.
    exists 0, (Ok acc). split; [lia|].
    now apply pages_loop_stop with (v := v).
  - simpl. unfold response_json.
    destruct (body_json (requests_get page)) as [w|];
      [|exists 0; eexists; split; [lia | reflexivity]].
    destruct (json_truthy w); simpl;
      [|exists 0; eexists; split; [lia | reflexivity]].
    destruct (for_pr_in strptime since w acc) as [acc'|e];
      [|exists 0; eexists; split; [lia | reflexivity]].
    destruct (IH (page + 1) fuel acc' (req ++ [page])) as (j & out & Hj & Hloop);
      try lia.
    exists (S j), out. split; [lia|].
    rewrite Hloop, <- app_assoc. cbn [seq app]. now rewrite Nat.add_1_r.
Qed.

(** C5, as the code has it.  The fetcher never looks at the status of a
    response: two remote ends that send the same bodies give the same
    outcome.  A requested page whose body is not JSON ends the call with the
    decoder's exception, so no list is returned then. *)
Theorem get_merged_prs_reads_bodies_only :
  (forall requests_get' : nat -> response,
      (forall n, body_json (requests_get n) = body_json (requests_get' n)) ->
      forall (fuel : nat) (since : datetime),
        get_merged_prs strptime requests_get fuel since =
        get_merged_prs strptime requests_get' fuel since)
  /\ (forall (fuel : nat) (since : datetime) (requested : list nat)
             (outcome : result (list merged_pr)) (n : nat),
      get_merged_prs strptime requests_get fuel since =
        Some (requested, outcome) ->
      In n requested ->
      body_json (requests_get n) = None ->
      outcome = Raise JSONDecodeError)
  /\ (forall (fuel : nat) (since : datetime)
             (pages : list (list PullRequest)),
      served requests_get 1 pages ->
      body_json (requests_get (1 + length pages)) = None ->
      length pages < fuel ->
      exists requested e,
        get_merged_prs strptime requests_get fuel since =
          Some (requested, Raise e)).
Proof.
  split; [|split].
  - intros requests_get' Hsame fuel since. unfold get_merged_prs.
    now apply pages_loop_status_blind.
  - intros fuel since requested outcome n Hrun Hin Hnone.
    destruct (pages_loop_undecodable _ _ _ _ _ _ _ Hrun)
      as (extra & Hlog & Hex).
    subst requested. now apply (Hex n).
  - intros fuel since pages Hserved Hnone Hfuel. unfold get_merged_prs.
    replace fuel with (length pages + S (fuel - length pages - 1)) by lia.
    pose proof (pages_loop_run since (S (fuel - length pages - 1)) pages
                  1 [] [] Hserved) as Hrun.
    destruct (visit_prs strptime since (concat pages) []) as [merged|e].
    + rewrite Hrun, (pages_loop_garbled _ _ _ _ _ Hnone). eauto.
    + destruct Hrun as (k & _ & Hloop). rewrite Hloop. eauto.
Qed.

(** A pull request before the one that raises is visited without harm. *)
Lemma visit_prs_first_raise (since : datetime) (e : exn)
  (before after : list PullRequest) (pr : PullRequest) :
  Forall (readable strptime since) before ->
  (forall acc, visit_pr strptime since acc pr = Raise e) ->
  forall acc, visit_prs strptime since (before ++ pr :: after) acc = Raise e.
Proof.
  intros Hbefore Hpr acc. rewrite visit_prs_app.
  destruct (visit_prs_readable since before Hbefore acc) as [acc' Hv].
  rewrite Hv. simpl. now rewrite Hpr.
Qed.

Lemma get_merged_prs_raise (since : datetime) (fuel : nat) (e : exn)
  (pages : list (list PullRequest)) :
  served requests_get 1 pages ->
  visit_prs strptime since (concat pages) [] = Raise e ->
  length pages <= fuel ->
  exists requested,
    get_merged_prs strptime requests_get fuel since =
      Some (requested, Raise e).
Proof.
  intros Hserved Hvisit Hfuel. unfold get_merged_prs.
  replace fuel with (length pages + (fuel - length pages)) by lia.
  pose proof (pages_loop_run since (fuel - length pages) pages 1 [] [] Hserved)
    as Hrun.
  rewrite Hvisit in Hrun. destruct Hrun as (k & _ & Hloop).
  rewrite Hloop. eauto.
Qed.

(** A pull request without merge time is passed over, whatever the
    cutoff. *)
Lemma unmerged_readable (since : datetime) (pr : PullRequest) :
  parse_merged_at strptime pr = Ok None -> readable strptime since pr.
Proof.
  intros Hparse. unfold readable, qualifies. rewrite Hparse.
  split; [eauto|]. split; discriminate.
Qed.

(** With an aware cutoff nothing is ever appended. *)
Lemma visit_pr_aware (fields : naive_datetime) (utcoffset : Z)
  (acc : list merged_pr) (pr : PullRequest) :
  visit_pr strptime (Aware fields utcoffset) acc pr =
    (m <- parse_merged_at strptime pr ;;
     match m with
     | Some _ => Raise TypeError
     | None => Ok acc
     end).
Proof.
  unfold visit_pr.
  now destruct (parse_merged_at strptime pr) as [[merged|]|e].
Qed.

Lemma visit_prs_aware (fields : naive_datetime) (utcoffset : Z)
  (prs : list PullRequest) :
  forall acc out : list merged_pr,
    visit_prs strptime (Aware fields utcoffset) prs acc = Ok out -> out = acc.
Proof.
  induction prs as [|pr prs IH]; intros acc out; simpl.
  - intros H. apply Ok_inj in H. now subst.
  - rewrite visit_pr_aware.
    destruct (parse_merged_at strptime pr) as [[merged|]|e]; simpl;
      try discriminate.
    apply IH.
Qed.

Lemma pages_loop_aware (fields : naive_datetime) (utcoffset : Z) :
  forall (fuel page : nat) (acc : list merged_pr) (req requested : list nat)
         (out : list merged_pr),
    pages_loop strptime requests_get fuel (Aware fields utcoffset) page acc
      req = Some (requested, Ok out) ->
    out = acc.
Proof.
  induction fuel as [|fuel IH]; intros page acc req requested out; simpl.
  - discriminate.
  - destruct (response_json (requests_get page)) as [v|e]; [|discriminate].
    destruct (json_truthy v); simpl.
    + destruct (for_pr_in strptime (Aware fields utcoffset) v acc)
        as [acc'|e] eqn:Hfor; [|discriminate].
      intros Hloop. rewrite (IH _ _ _ _ _ Hloop).
      destruct v as [items|[|member members]]; simpl in Hfor.
      * now apply (visit_prs_aware fields utcoffset items).
      * apply Ok_inj in Hfor. now subst.
      * discriminate.
    + intros H. inversion H; subst. reflexivity.
Qed.

(** C6, at the input where the code fails.  The merge time of a pull
    request is naive, and comparing it with an aware cutoff raises
    [TypeError].  So under an aware cutoff the first pull request that has a
    merge time ends the call, however late it was merged, and a call that
    does return a list returns the empty one.  An aware cutoff is what
    [datetime.fromisoformat] makes of a creation time that ends with [Z], as
    those of the API do: on the three pull requests of the filtering
    example, with the cutoff written [2024-01-15T00:00:00Z], the first page
    is requested and the call raises; the entry of February is not
    returned. *)
Theorem get_merged_prs_aware_cutoff (fields : naive_datetime)
  (utcoffset : Z) :
  (forall (fuel : nat) (pages : list (list PullRequest))
          (before after : list PullRequest) (pr : PullRequest)
          (merged : naive_datetime),
      served requests_get 1 pages ->
      concat pages = before ++ pr :: after ->
      Forall (fun earlier => parse_merged_at strptime earlier = Ok None)
        before ->
      parse_merged_at strptime pr = Ok (Some merged) ->
      length pages <= fuel ->
      exists requested,
        get_merged_prs strptime requests_get fuel (Aware fields utcoffset) =
          Some (requested, Raise TypeError))
  /\ (forall (fuel : nat) (requested : list nat) (merged_prs : list merged_pr),
      get_merged_prs strptime requests_get fuel (Aware fields utcoffset) =
        Some (requested, Ok merged_prs) ->
      merged_prs = [])
  /\ get_merged_prs Sample.strptime
       (Sample.serve
          [[Sample.pr_january; Sample.pr_february; Sample.pr_unmerged]])
       2 Sample.mid_january_utc = Some ([1], Raise TypeError)
  /\ main_release_body Sample.strptime Sample.fromisoformat
       (Sample.serve
          [[Sample.pr_january; Sample.pr_february; Sample.pr_unmerged]])
       2 (Some (mk_release "2024-01-15T00:00:00Z")) =
     Some ([1], Raise TypeError).
Proof.
  split; [|split; [|split; reflexivity]].
  - intros fuel pages before after pr merged Hserved Hconcat Hbefore Hparse
      Hfuel.
    apply get_merged_prs_raise with (pages := pages); try assumption.
    rewrite Hconcat. apply visit_prs_first_raise.
    + apply (Forall_impl _ (unmerged_readable (Aware fields utcoffset))).
      exact Hbefore.
    + intros acc. rewrite visit_pr_aware, Hparse. reflexivity.
  - intros fuel requested merged_prs Hrun. unfold get_merged_prs in Hrun.
    apply (pages_loop_aware _ _ _ _ _ _ _ _ Hrun).
Qed.

(** C9.  If some page comes back empty, the loop ends at that page or
    before.  With two non-empty pages and then an empty one, the call
    returns what one pass over the first two pages in order returns, that is
    their qualifying pull requests, and it asks for pages 1, 2 and 3 only. *)
Theorem get_merged_prs_stops_at_empty_page (since : datetime) (fuel : nat) :
  (forall (stop : nat) (v : json_value),
      1 <= stop <= fuel ->
      body_json (requests_get stop) = Some v ->
      json_truthy v = false ->
      exists requested outcome,
        get_merged_prs strptime requests_get fuel since =
          Some (requested, outcome)
        /\ forall p, In p requested -> 1 <= p <= stop)
  /\ (forall first second : list PullRequest,
      first <> [] ->
      second <> [] ->
      body_json (requests_get 1) = Some (JsonArray first) ->
      body_json (requests_get 2) = Some (JsonArray second) ->
      body_json (requests_get 3) = Some (JsonArray []) ->
      3 <= fuel ->
      exists requested,
        get_merged_prs strptime requests_get fuel since =
          Some (requested, visit_prs strptime since (first ++ second) [])
        /\ ~ In 4 requested
        /\ forall merged,
            visit_prs strptime since (first ++ second) [] = Ok merged ->
            requested = [1; 2; 3]
            /\ Forall2 (describes strptime)
                 (filter (qualifies strptime since) (first ++ second)) merged).
Proof.
  split.
  - intros stop v [Hlow Hhigh] Hbody Hfalse.
    destruct (pages_loop_terminates since stop v Hbody Hfalse
                (stop - 1) 1 fuel [] []) as (j & out & Hj & Hloop); try lia.
    exists (seq 1 (S j)), out. split; [exact Hloop|].
    intros p Hp. apply in_seq in Hp. lia.
  - intros first second Hfirst Hsecond Hone Htwo Hthree Hfuel.
    destruct (get_merged_prs_paged since fuel [first; second] (JsonArray []))
      as (requested & Hrun & Hbound & Hall);
      [simpl; auto | exact Hthree | reflexivity | simpl; lia |].
    simpl in Hrun, Hbound, Hall. rewrite app_nil_r in Hrun, Hall.
    exists requested. split; [exact Hrun|]. split.
    + intros Hin. apply Hbound in Hin. lia.
    + intros merged Hvisit. split; [now apply (Hall merged)|].
      destruct (visit_prs_kept _ _ _ _ Hvisit) as (es & Hout & Hkept).
      now subst merged.
Qed.

End FetchFacts.

(** ** Witnesses and failing inputs of the fetcher *)

Lemma get_merged_prs_reads_bodies_only_witness :
  exists requested e,
    get_merged_prs Sample.strptime Sample.garbled_second_page 5
      Sample.mid_january = Some (requested, Raise e).
Proof.
  apply (proj2 (proj2 (get_merged_prs_reads_bodies_only Sample.strptime
                         Sample.garbled_second_page))
           5 Sample.mid_january [[Sample.pr1]]).
  - simpl. repeat split. discriminate.
  - reflexivity.
  - simpl. lia.
Defined.

(** C5 as worded fails: the second page comes back with status 500 and an
    empty array, and the call returns the pull request of the first page as
    if the listing had ended there. *)
Lemma get_merged_prs_returns_after_failed_page :
  status_code (Sample.failing_second_page 2) = 500
  /\ get_merged_prs Sample.strptime Sample.failing_second_page 5
       Sample.mid_january = Some ([1; 2], Ok [Sample.merged1]).
Proof.
  split; reflexivity.
Qed.

Lemma get_merged_prs_aware_cutoff_witness :
  exists requested,
    get_merged_prs Sample.strptime
      (Sample.serve
         [[Sample.pr_unmerged; Sample.pr_february; Sample.pr_january]])
      1 Sample.mid_january_utc = Some (requested, Raise TypeError).
Proof.
  apply (proj1 (get_merged_prs_aware_cutoff Sample.strptime
                  (Sample.serve
                     [[Sample.pr_unmerged; Sample.pr_february;
                       Sample.pr_january]])
                  (mk_datetime 2024 1 15 0 0 0 0) 0)
           1 [[Sample.pr_unmerged; Sample.pr_february; Sample.pr_january]]
           [Sample.pr_unmerged] [Sample.pr_january] Sample.pr_february
           (mk_datetime 2024 2 1 0 0 0 0)).
  - simpl. repeat split. discriminate.
  - reflexivity.
  - repeat constructor.
  - reflexivity.
  - simpl. lia.
Defined.

Lemma get_merged_prs_stops_at_empty_page_witness :
  (exists requested,
      get_merged_prs Sample.strptime
        (Sample.serve [[Sample.pr1]; [Sample.pr2]]) 5 Sample.mid_january =
        Some (requested,
              visit_prs Sample.strptime Sample.mid_january
                ([Sample.pr1] ++ [Sample.pr2]) [])
      /\ ~ In 4 requested
      /\ forall merged,
          visit_prs Sample.strptime Sample.mid_january
            ([Sample.pr1] ++ [Sample.pr2]) [] = Ok merged ->
          requested = [1; 2; 3]
          /\ Forall2 (describes Sample.strptime)
               (filter (qualifies Sample.strptime Sample.mid_january)
                  ([Sample.pr1] ++ [Sample.pr2])) merged)
  /\ get_merged_prs Sample.strptime
       (Sample.serve [[Sample.pr1]; [Sample.pr2]]) 5 Sample.mid_january =
     Some ([1; 2; 3], Ok [Sample.merged1; Sample.merged2]).
Proof.
  split.
  - apply (proj2 (get_merged_prs_stops_at_empty_page Sample.strptime
                    (Sample.serve [[Sample.pr1]; [Sample.pr2]])
                    Sample.mid_january 5)
             [Sample.pr1] [Sample.pr2]);
      try reflexivity; try discriminate. lia.
  - reflexivity.
Defined.

(** ** The composer *)

Section ComposerFacts.

Lemma append_assoc (a b c : string) : ((a ++ b) ++ c = a ++ (b ++ c))%string.
Proof.
  induction a as [|x a IH]; simpl; [reflexivity | now rewrite IH].
Qed.

Lemma append_empty_r (a : string) : (a ++ "" = a)%string.
Proof.
  induction a as [|x a IH]; simpl; [reflexivity | now rewrite IH].
Qed.

Lemma fold_bullet_points (bullets : list string) :
  forall release_body : string,
    fold_left add_bullet_point bullets release_body =
      (release_body ++ bullet_lines bullets)%string.
Proof.
  induction bullets as [|bullet bullets IH]; intros release_body.
  - simpl. now rewrite append_empty_r.
  - cbn [fold_left]. rewrite IH. unfold add_bullet_point, bullet_lines.
    cbn [map joined]. now rewrite !append_assoc.
Qed.

Lemma add_section_text (release_body : string) (notes : release_notes_t)
  (section : string) (bullets : list string) :
  lookup section notes = Some bullets ->
  add_section release_body (section, bullets) =
    (release_body ++ category_text notes section)%string.
Proof.
  intros Hlook. unfold add_section, category_text. rewrite Hlook.
  destruct bullets as [|bullet bullets].
  - now rewrite append_empty_r.
  - rewrite fold_bullet_points. now rewrite !append_assoc.
Qed.

Lemma lookup_in (d : release_notes_t) (c : string) (bullets : list string) :
  NoDup (map fst d) -> In (c, bullets) d -> lookup c d = Some bullets.
Proof.
  induction d as [|[k v] d IH]; simpl; intros Hnodup Hin.
  - contradiction.
  - inversion Hnodup as [|? ? Hnotin Hnodup']; subst.
    destruct Hin as [Heq | Hin].
    + inversion Heq; subst. now rewrite String.eqb_refl.
    + destruct (String.eqb c k) eqn:Hck.
      * apply String.eqb_eq in Hck. subst k.
        exfalso. apply Hnotin. apply in_map_iff. now exists (c, bullets).
      * now apply IH.
Qed.

Lemma fold_sections (notes : release_notes_t) (items : release_notes_t) :
  (forall c bullets, In (c, bullets) items -> lookup c notes = Some bullets) ->
  forall release_body : string,
    fold_left add_section items release_body =
      (release_body ++ joined (map (category_text notes) (map fst items)))%string.
Proof.
  induction items as [|[c bullets] items IH]; intros Hlook release_body.
  - simpl. now rewrite append_empty_r.
  - cbn [fold_left map fst joined].
    rewrite IH by (intros; apply Hlook; now right).
    rewrite (add_section_text _ notes) by (apply Hlook; now left).
    now rewrite append_assoc.
Qed.

Lemma add_pr_text (release_body : string) (pr : merged_pr) :
  six_keys pr ->
  add_pr release_body pr = (release_body ++ entry_text pr)%string.
Proof.
  unfold six_keys. intros Hkeys. unfold add_pr, entry_text.
  rewrite (fold_sections (release_notes pr)).
  - rewrite Hkeys. now rewrite !append_assoc.
  - intros c bullets Hin. apply lookup_in; [|exact Hin].
    rewrite Hkeys. exact NoDup_categories.
Qed.

Lemma fold_prs (merged_prs : list merged_pr) :
  Forall six_keys merged_prs ->
  forall release_body : string,
    fold_left add_pr merged_prs release_body =
      (release_body ++ document merged_prs)%string.
Proof.
  induction 1 as [|pr merged_prs Hpr _ IH]; intros release_body.
  - simpl. now rewrite append_empty_r.
  - cbn [fold_left]. rewrite IH, (add_pr_text _ _ Hpr).
    unfold document. cbn [map joined]. now rewrite append_assoc.
Qed.

Variable strptime : string -> result naive_datetime.

(** Every dictionary the fetcher appends has the six keys. *)
Lemma visit_pr_six_keys (since : datetime) (acc out : list merged_pr)
  (pr : PullRequest) :
  Forall six_keys acc ->
  visit_pr strptime since acc pr = Ok out ->
  Forall six_keys out.
Proof.
  intros Hacc Hvisit.
  destruct (visit_pr_kept _ _ _ _ _ Hvisit)
    as [(_ & e & Hdesc & Hout) | (_ & Hout)]; subst out; [|exact Hacc].
  apply Forall_app. split; [exact Hacc|].
  constructor; [|constructor].
  destruct Hdesc as (_ & Hnotes & _).
  unfold six_keys. destruct (pr_body pr) as [body|]; simpl in Hnotes;
    [|discriminate].
  rewrite extract_changelog_closed_form in Hnotes.
  apply Ok_inj in Hnotes. rewrite <- Hnotes, map_map. reflexivity.
Qed.

Lemma visit_prs_six_keys (since : datetime) (prs : list PullRequest) :
  forall acc out : list merged_pr,
    Forall six_keys acc ->
    visit_prs strptime since prs acc = Ok out ->
    Forall six_keys out.
Proof.
  induction prs as [|pr prs IH]; intros acc out Hacc; simpl.
  - intros H. apply Ok_inj in H. now subst.
  - destruct (visit_pr strptime since acc pr) as [acc1|e] eqn:Hvisit; simpl;
      [|discriminate].
    apply IH. now apply (visit_pr_six_keys since acc acc1 pr).
Qed.

Variable requests_get : nat -> response.

Lemma pages_loop_six_keys (since : datetime) :
  forall (fuel page : nat) (acc : list merged_pr) (req requested : list nat)
         (merged : list merged_pr),
    Forall six_keys acc ->
    pages_loop strptime requests_get fuel since page acc req =
      Some (requested, Ok merged) ->
    Forall six_keys merged.
Proof.
  induction fuel as [|fuel IH]; intros page acc req requested merged Hacc;
    simpl.
  - discriminate.
  - destruct (response_json (requests_get page)) as [v|e]; [|discriminate].
    destruct (json_truthy v); simpl.
    + destruct (for_pr_in strptime since v acc) as [acc'|e] eqn:Hfor;
        [|discriminate].
      apply IH. destruct v as [items|[|member members]]; simpl in Hfor.
      * now apply (visit_prs_six_keys since items acc).
      * apply Ok_inj in Hfor. now subst.
      * discriminate.
    + intros H. inversion H; subst. exact Hacc.
Qed.

Variable fromisoformat : string -> result datetime.

(** C4, as the code has it.  The composer writes one section for each
    dictionary in order: the line [## ticket - title], then for each of the
    six categories in their fixed order that has bullets the line
    [### category] and one line [- bullet] for each bullet in order.  The
    ticket is put between ["## "] and [" - "] as it stands, so the two pull
    requests of the example compose to the six lines of
    [Sample.composed_lines], the fourth of which has two spaces after [##]. *)
Theorem generate_release_body_document :
  (forall merged_prs : list merged_pr,
      Forall six_keys merged_prs ->
      render_merged_prs merged_prs = document merged_prs)
  /\ (forall (fuel : nat) (s : string) (since : datetime)
             (requested : list nat) (merged_prs : list merged_pr),
      fromisoformat s = Ok since ->
      get_merged_prs strptime requests_get fuel since =
        Some (requested, Ok merged_prs) ->
      generate_release_body strptime fromisoformat requests_get fuel (Some s) =
        Some (requested, Ok (document merged_prs)))
  /\ generate_release_body Sample.strptime Sample.fromisoformat
       (Sample.serve [[Sample.pr1; Sample.pr2]]) 2 (Some "2024-01-15") =
     Some ([1; 2], Ok (Sample.terminated Sample.composed_lines)).
Proof.
  split; [|split].
  - intros merged_prs Hkeys. unfold render_merged_prs.
    now rewrite (fold_prs _ Hkeys).
  - intros fuel s since requested merged_prs Hsince Hrun.
    unfold generate_release_body. rewrite Hsince, Hrun.
    unfold render_merged_prs. rewrite fold_prs; [reflexivity|].
    unfold get_merged_prs in Hrun.
    apply (pages_loop_six_keys since _ _ _ _ _ _ (Forall_nil _) Hrun).
  - reflexivity.
Qed.

(** C3, at the input where the code fails.  Without a cutoff the script
    passes [None]; [datetime.fromisoformat] raises [TypeError] on it before
    any page is requested, and so does line 231 of the script before that. *)
Theorem generate_release_body_without_cutoff (fuel : nat) :
  generate_release_body strptime fromisoformat requests_get fuel None =
    Some ([], Raise TypeError)
  /\ main_release_body strptime fromisoformat requests_get fuel None =
       Some ([], Raise TypeError).
Proof.
  split; reflexivity.
Qed.

End ComposerFacts.

Lemma generate_release_body_document_witness :
  render_merged_prs [Sample.merged1; Sample.merged2] =
    document [Sample.merged1; Sample.merged2]
  /\ document [Sample.merged1; Sample.merged2] =
       Sample.terminated Sample.composed_lines.
Proof.
  split.
  - apply (proj1 (generate_release_body_document Sample.strptime
                    (Sample.serve []) Sample.fromisoformat)).
    repeat constructor.
  - reflexivity.
Defined.

(** C4 as worded fails at its own example: the heading of the pull request
    without a ticket is [##  - Add feature], with two spaces, so the composed
    document is not the one printed in the specification, with or without a
    final line feed, and none of its lines is [## - Add feature]. *)
Lemma generate_release_body_ticketless_heading :
  generate_release_body Sample.strptime Sample.fromisoformat
    (Sample.serve [[Sample.pr1; Sample.pr2]]) 2 (Some "2024-01-15") =
    Some ([1; 2], Ok (Sample.terminated Sample.composed_lines))
  /\ Sample.terminated Sample.composed_lines
     <> Sample.terminated Sample.printed_lines
  /\ Sample.terminated Sample.composed_lines <> Sample.text Sample.printed_lines
  /\ ~ In "## - Add feature"
         (Py.splitlines (Sample.terminated Sample.composed_lines))
  /\ nth 3 (Py.splitlines (Sample.terminated Sample.composed_lines)) "" =
       "##  - Add feature".
Proof.
  split; [reflexivity|].
  split; [discriminate|].
  split; [discriminate|].
  split; [|reflexivity].
  simpl. intros H.
  repeat (destruct H as [H | H]; [discriminate H|]).
  exact H.
Qed.

(** * Further properties *)

(** ** More on the ticket extractors *)

Section TicketOutcomes.

Lemma first_marked_line (lines : list string) :
  Forall unmarked lines
  \/ exists pre line rest,
       lines = pre ++ line :: rest
       /\ Forall unmarked pre
       /\ Regex.jira_ticket_section line = true.
Proof.
  induction lines as [|line lines IH].
  - left. constructor.
  - destruct (Regex.jira_ticket_section line) eqn:Hline.
    + right. exists [], line, lines.
      split; [reflexivity|]. split; [constructor | exact Hline].
    + destruct IH as [Hall | (pre & l & rest & Heq & Hpre & Hl)].
      * left. now constructor.
      * right. exists (line :: pre), l, rest. subst lines.
        split; [reflexivity|]. split; [now constructor | exact Hl].
Qed.

(** X1.  The ticket extractor has three outcomes and no other: [""] when
    no line starts with the marker, the line after the first marked line
    when there is one, and [IndexError] when the first marked line is the
    last line.  It raises nothing else. *)
Theorem extract_jira_ticket_no_outcomes (pr_body : string) :
  (Forall unmarked (Py.splitlines pr_body)
   /\ extract_jira_ticket_no pr_body = Ok "")
  \/ (exists pre line next post,
        Py.splitlines pr_body = pre ++ line :: next :: post
        /\ Forall unmarked pre
        /\ Regex.jira_ticket_section line = true
        /\ extract_jira_ticket_no pr_body = Ok next)
  \/ (exists pre line,
        Py.splitlines pr_body = pre ++ [line]
        /\ Forall unmarked pre
        /\ Regex.jira_ticket_section line = true
        /\ extract_jira_ticket_no pr_body = Raise IndexError).
Proof.
  unfold extract_jira_ticket_no.
  destruct (first_marked_line (Py.splitlines pr_body))
    as [Hall | (pre & line & rest & Heq & Hpre & Hline)].
  - left. split; [exact Hall | now apply ticket_loop_unmarked].
  - right.
    assert (Hrun : ticket_loop (Py.splitlines pr_body) 0 (Py.splitlines pr_body)
                   = Py.getitem (Py.splitlines pr_body) (length pre + 1)).
    { rewrite Heq at 2. rewrite ticket_loop_skip by assumption.
      simpl. now rewrite Hline. }
    rewrite Hrun, Heq.
    destruct rest as [|next post].
    + right. exists pre, line.
      split; [reflexivity|]. split; [assumption|]. split; [assumption|].
      apply getitem_past_end.
    + left. exists pre, line, next, post.
      split; [reflexivity|]. split; [assumption|]. split; [assumption|].
      apply getitem_after.
Qed.

(** X2.  The extractors of the two scripts agree on every description whose
    first line starts with the marker; on a description of two lines or more
    without any marked line the newer one returns [""] and the older one the
    second line. *)
Theorem extractors_compared (pr_body first : string) (rest : list string) :
  Py.splitlines pr_body = first :: rest ->
  (Regex.jira_ticket_section first = true ->
   GhReleases.extract_jira_ticket_no pr_body = extract_jira_ticket_no pr_body)
  /\ (forall second rest',
        rest = second :: rest' ->
        Forall unmarked (first :: rest) ->
        extract_jira_ticket_no pr_body = Ok ""
        /\ GhReleases.extract_jira_ticket_no pr_body = Ok second).
Proof.
  intros Hlines. split.
  - intros Hfirst.
    unfold GhReleases.extract_jira_ticket_no, extract_jira_ticket_no.
    rewrite Hlines. simpl. now rewrite Hfirst.
  - intros second rest' Hrest Hall. split.
    + unfold extract_jira_ticket_no. rewrite Hlines.
      now apply ticket_loop_unmarked.
    + unfold GhReleases.extract_jira_ticket_no. rewrite Hlines, Hrest.
      reflexivity.
Qed.

Lemma extractors_compared_witness :
  (GhReleases.extract_jira_ticket_no Fixture.body_heading_first =
     extract_jira_ticket_no Fixture.body_heading_first)
  /\ (extract_jira_ticket_no Sample.body_no_marker = Ok ""
      /\ GhReleases.extract_jira_ticket_no Sample.body_no_marker =
           Ok "- a bullet").
Proof.
  split.
  - apply (proj1 (extractors_compared Fixture.body_heading_first
                    "### Ticket: see tracker" ["JIRA-7"; "### Fixed"] eq_refl)).
    reflexivity.
  - apply (proj2 (extractors_compared Sample.body_no_marker
                    "Summary of the change" ["- a bullet"] eq_refl)
             "- a bullet" [] eq_refl).
    repeat constructor.
Defined.

End TicketOutcomes.

(** ** More on the changelog extractor *)

Section ChangelogMore.

Lemma string_forall_app (p : ascii -> bool) (a b : string) :
  string_forall p (a ++ b) = string_forall p a && string_forall p b.
Proof.
  induction a as [|c a IH]; simpl; [reflexivity|].
  now rewrite IH, andb_assoc.
Qed.

(** No line that [str.splitlines] returns holds a line break. *)
Lemma splitlines_from_no_break (n : nat) :
  forall s cur : string,
    String.length s <= n ->
    string_forall no_break cur = true ->
    Forall (fun line => string_forall no_break line = true)
      (Py.splitlines_from cur s).
Proof.
  induction n as [|n IH]; intros s cur Hlen Hcur.
  - destruct s; [|simpl in Hlen; lia].
    simpl. destruct cur; repeat constructor. exact Hcur.
  - destruct s as [|c rest].
    + simpl. destruct cur; repeat constructor. exact Hcur.
    + simpl in Hlen. cbn [Py.splitlines_from].
      destruct (Py.is_linebreak c) eqn:Hc.
      * constructor; [exact Hcur|].
        destruct rest as [|d rest']; [constructor|].
        simpl in Hlen.
        destruct (Py.is_cr c && Py.is_lf d);
          apply IH; simpl; try lia; reflexivity.
      * apply IH; [lia|].
        rewrite string_forall_app, Hcur. simpl.
        unfold no_break. now rewrite Hc.
Qed.

Lemma splitlines_no_break (pr_body line : string) :
  In line (Py.splitlines pr_body) -> string_forall no_break line = true.
Proof.
  intros Hin.
  pose proof (splitlines_from_no_break (String.length pr_body) pr_body ""
                (le_n _) eq_refl) as Hall.
  rewrite Forall_forall in Hall. now apply Hall.
Qed.

Lemma take_while_all (p : ascii -> bool) (s : string) :
  string_forall p s = true -> Py.take_while p s = s.
Proof.
  induction s as [|c s IH]; simpl; [reflexivity|].
  intros H. apply andb_prop in H. destruct H as [Hc Hs].
  now rewrite Hc, IH.
Qed.

Lemma string_forall_impl (p q : ascii -> bool) (s : string) :
  (forall c, p c = true -> q c = true) ->
  string_forall p s = true -> string_forall q s = true.
Proof.
  intros Hpq. induction s as [|c s IH]; simpl; [reflexivity|].
  intros H. apply andb_prop in H. destruct H as [Hc Hs].
  now rewrite (Hpq c Hc), IH.
Qed.

Lemma string_forall_drop (p : ascii -> bool) (n : nat) :
  forall s : string,
    string_forall p s = true -> string_forall p (Py.drop n s) = true.
Proof.
  induction n as [|n IH]; intros s H; simpl; [exact H|].
  destruct s as [|c s]; [reflexivity|].
  simpl in H. apply andb_prop in H. now apply IH.
Qed.

Lemma no_break_is_dot (c : ascii) : no_break c = true -> Py.is_dot c = true.
Proof.
  unfold no_break, Py.is_dot, Py.is_linebreak.
  destruct (nat_of_ascii c =? 10) eqn:Hten; [|reflexivity].
  apply Nat.eqb_eq in Hten. rewrite Hten. discriminate.
Qed.

Lemma prefix_dash (line : string) :
  prefix "- " line = true -> line = ("- " ++ Py.drop 2 line)%string.
Proof.
  destruct line as [|a [|b line]]; cbn [prefix]; try discriminate.
  - destruct (ascii_dec "-" a); discriminate.
  - destruct (ascii_dec "-" a) as [Ha|]; [|discriminate].
    destruct (ascii_dec " " b) as [Hb|]; [|discriminate].
    subst. reflexivity.
Qed.

Lemma prefix_dash_append (text : string) :
  prefix "- " ("- " ++ text) = true.
Proof.
  cbn [append prefix].
  destruct (ascii_dec "-" "-") as [_|Hn]; [|now contradiction Hn].
  destruct (ascii_dec " " " ") as [_|Hn]; [|now contradiction Hn].
  now destruct text.
Qed.

(** X3.  On a line of a description the bullet pattern takes the whole
    remainder of the line: a line is a bullet with text [text] exactly when
    it reads ["- "] followed by [text] and [text] is not empty.  The group
    stops at a line feed only, and a line holds none. *)
Theorem bullet_text_is_rest_of_line (pr_body line text : string) :
  In line (Py.splitlines pr_body) ->
  (Regex.bullet_point_regex line = Some text <->
   line = ("- " ++ text)%string /\ text <> "").
Proof.
  intros Hin.
  pose proof (splitlines_no_break _ _ Hin) as Hline.
  assert (Hrest : forall l,
             string_forall no_break l = true ->
             Py.take_while Py.is_dot (Py.drop 2 l) = Py.drop 2 l).
  { intros l Hl. apply take_while_all.
    apply string_forall_impl with (p := no_break); [apply no_break_is_dot|].
    now apply string_forall_drop. }
  unfold Regex.bullet_point_regex. split.
  - destruct (prefix "- " line) eqn:Hprefix; [|discriminate].
    rewrite (Hrest line Hline).
    destruct (Py.drop 2 line) as [|c rest] eqn:Hdrop; [discriminate|].
    intros H. inversion H; subst text.
    split; [|discriminate].
    rewrite <- Hdrop. now apply prefix_dash.
  - intros [Heq Hne]. subst line.
    rewrite prefix_dash_append, (Hrest _ Hline).
    cbn [append Py.drop].
    destruct text; [contradiction | reflexivity].
Qed.

Lemma bullet_text_is_rest_of_line_witness :
  Regex.bullet_point_regex "-   spaced out   " = Some "  spaced out   ".
Proof.
  apply (proj2 (bullet_text_is_rest_of_line Fixture.body_padded_bullets
                  "-   spaced out   " "  spaced out   "
                  (or_intror (or_intror (or_introl eq_refl))))).
  split; [reflexivity | discriminate].
Defined.

Lemma rev_onto_append (s acc : string) :
  Py.rev_onto s acc = (Py.rev s ++ acc)%string.
Proof.
  unfold Py.rev. revert acc.
  induction s as [|c s IH]; intros acc; simpl; [reflexivity|].
  rewrite IH, (IH (String c "")), append_assoc. reflexivity.
Qed.

Lemma rev_cons (c : ascii) (s : string) :
  Py.rev (String c s) = (Py.rev s ++ String c "")%string.
Proof.
  unfold Py.rev at 1. simpl. apply rev_onto_append.
Qed.

Lemma rev_append (a b : string) :
  Py.rev (a ++ b) = (Py.rev b ++ Py.rev a)%string.
Proof.
  induction a as [|c a IH]; simpl.
  - now rewrite append_empty_r.
  - now rewrite !rev_cons, IH, append_assoc.
Qed.

Lemma rev_involutive (s : string) : Py.rev (Py.rev s) = s.
Proof.
  induction s as [|c s IH]; [reflexivity|].
  now rewrite rev_cons, rev_append, IH.
Qed.

(** What [drop_while] removes and what it leaves. *)
Lemma drop_while_split (p : ascii -> bool) (s : string) :
  exists removed,
    s = (removed ++ Py.drop_while p s)%string
    /\ Py.drop_while p (Py.drop_while p s) = Py.drop_while p s.
Proof.
  induction s as [|c s (removed & Heq & Hfix)]; simpl.
  - now exists "".
  - destruct (p c) eqn:Hc.
    + exists (String c removed). simpl. now rewrite <- Heq.
    + exists "". split; [reflexivity|]. simpl. now rewrite Hc.
Qed.

Lemma drop_while_prefix (p : ascii -> bool) (w rest : string) :
  Py.drop_while p (w ++ rest) = (w ++ rest)%string ->
  Py.drop_while p w = w.
Proof.
  destruct w as [|c w]; [reflexivity|]. simpl.
  destruct (p c) eqn:Hc; [|reflexivity].
  intros H. exfalso.
  assert (Hlen : forall s, String.length (Py.drop_while p s) <= String.length s).
  { clear. induction s as [|d s IH]; simpl; [lia|].
    destruct (p d); simpl; lia. }
  specialize (Hlen (w ++ rest)%string). rewrite H in Hlen. simpl in Hlen. lia.
Qed.

(** [strip] leaves nothing for a second [strip] to remove. *)
Lemma strip_idempotent (s : string) : Py.strip (Py.strip s) = Py.strip s.
Proof.
  unfold Py.strip.
  destruct (drop_while_split Py.is_space s) as (_ & _ & Hfront).
  set (t := Py.drop_while Py.is_space s) in *.
  destruct (drop_while_split Py.is_space (Py.rev t)) as (removed & Hsplit & Hback).
  set (v := Py.drop_while Py.is_space (Py.rev t)) in *.
  assert (Ht : t = (Py.rev v ++ Py.rev removed)%string).
  { rewrite <- (rev_involutive t), Hsplit. apply rev_append. }
  assert (Hw : Py.drop_while Py.is_space (Py.rev v) = Py.rev v).
  { apply drop_while_prefix with (rest := Py.rev removed).
    now rewrite <- Ht. }
  now rewrite Hw, rev_involutive, Hback.
Qed.

(** X4.  Every bullet the extractor stores is trimmed: stripping it again
    changes nothing, so no stored bullet starts or ends with white space. *)
Theorem extract_changelog_bullets_trimmed
  (pr_body : string) (notes : release_notes_t) (c : string)
  (bullets : list string) (bullet : string) :
  extract_changelog pr_body = Ok notes ->
  In (c, bullets) notes ->
  In bullet bullets ->
  Py.strip bullet = bullet.
Proof.
  intros Hrun Hin Hbullet.
  rewrite extract_changelog_closed_form in Hrun.
  apply Ok_inj in Hrun. subst notes.
  apply in_map_iff in Hin. destruct Hin as (c' & Heq & _).
  inversion Heq; subst c' bullets.
  apply bullets_in_origin, attributed_origin in Hbullet.
  destruct Hbullet as (line & text & _ & _ & Hstrip).
  subst bullet. apply strip_idempotent.
Qed.

Lemma extract_changelog_bullets_trimmed_witness :
  Py.strip "spaced out" = "spaced out".
Proof.
  apply (extract_changelog_bullets_trimmed Fixture.body_padded_bullets
           [("Added", []); ("Changed", ["spaced out"; "second"]);
            ("Deprecated", []); ("Removed", []); ("Fixed", []);
            ("Security", [])]
           "Changed" ["spaced out"; "second"] "spaced out").
  - reflexivity.
  - simpl. auto.
  - simpl. auto.
Defined.

Lemma prefix_append (a b : string) : prefix a (a ++ b) = true.
Proof.
  induction a as [|c a IH]; simpl; [now destruct b|].
  destruct (ascii_dec c c) as [_|Hn]; [exact IH | now contradiction Hn].
Qed.

Lemma take_while_word (a b : string) :
  string_forall Py.is_word a = true ->
  ends_word b = true ->
  Py.take_while Py.is_word (a ++ b) = a.
Proof.
  intros Ha Hb. induction a as [|c a IH]; simpl.
  - destruct b as [|d b]; [reflexivity|]. simpl in *.
    now destruct (Py.is_word d).
  - simpl in Ha. apply andb_prop in Ha. destruct Ha as [Hc Ha].
    now rewrite Hc, IH.
Qed.

(** X5.  A heading may go on after its label: for each of the six labels,
    the line made of [### ], the label and anything that does not start with
    a word character is a heading for that label. *)
Theorem heading_with_trailing_text (category suffix : string) :
  In category categories ->
  ends_word suffix = true ->
  Regex.section_regex ("### " ++ category ++ suffix) = Some category
  /\ valid_heading ("### " ++ category ++ suffix) = true.
Proof.
  intros Hcat Hsuffix.
  assert (Hword : string_forall Py.is_word category = true
                  /\ category <> "" /\ known category = true).
  { unfold categories in Hcat. simpl in Hcat.
    destruct Hcat as [H | [H | [H | [H | [H | [H | []]]]]]]; subst category;
      (split; [reflexivity | split; [discriminate | reflexivity]]). }
  destruct Hword as (Hword & Hne & Hknown).
  assert (Hsec : Regex.section_regex ("### " ++ category ++ suffix)
                 = Some category).
  { unfold Regex.section_regex. rewrite prefix_append.
    change (Py.drop 4 ("### " ++ category ++ suffix))
      with (category ++ suffix)%string.
    rewrite (take_while_word _ _ Hword Hsuffix).
    destruct category; [contradiction | reflexivity]. }
  split; [exact Hsec|].
  unfold valid_heading. now rewrite Hsec.
Qed.

Lemma heading_with_trailing_text_witness :
  Regex.section_regex "### Changed: API" = Some "Changed"
  /\ valid_heading "### Changed: API" = true.
Proof.
  apply (heading_with_trailing_text "Changed" ": API").
  - simpl. auto.
  - reflexivity.
Defined.

Lemma attributed_filter_relevant (lines : list string) :
  forall current : option string,
    attributed current (filter relevant lines) = attributed current lines.
Proof.
  induction lines as [|line lines IH]; intros current; cbn [filter attributed].
  - reflexivity.
  - destruct (relevant line) eqn:Hrel.
    + cbn [attributed]. now rewrite IH.
    + unfold relevant in Hrel.
      destruct (Regex.section_regex line) as [word|] eqn:Hsec; [discriminate|].
      destruct (Regex.bullet_point_regex line) as [text|] eqn:Hbul;
        [discriminate|].
      unfold line_bullet, next_section. rewrite Hsec, Hbul. simpl. apply IH.
Qed.

(** X6.  Free text is ignored: the lines that are neither a heading nor a
    bullet can be taken out of a description without changing what the
    extractor returns. *)
Theorem extract_changelog_ignores_free_text (pr_body : string) :
  extract_changelog pr_body =
    (st <- changelog_loop (filter relevant (Py.splitlines pr_body))
             (None, fresh_release_notes) ;;
     Ok (snd st)).
Proof.
  rewrite changelog_lines_closed_form, extract_changelog_closed_form.
  unfold bullets_of. now rewrite attributed_filter_relevant.
Qed.

End ChangelogMore.

(** ** More on the composer *)

Section ComposerMore.

Lemma add_section_onto (release_body : string) (item : string * list string) :
  add_section release_body item =
    (release_body ++ add_section "" item)%string.
Proof.
  destruct item as [section [|bullet bullets]]; unfold add_section.
  - now rewrite append_empty_r.
  - rewrite !fold_bullet_points. now rewrite !append_assoc.
Qed.

Lemma fold_sections_onto (items : release_notes_t) :
  forall release_body : string,
    fold_left add_section items release_body =
      (release_body ++ fold_left add_section items "")%string.
Proof.
  induction items as [|item items IH]; intros release_body; cbn [fold_left].
  - now rewrite append_empty_r.
  - rewrite IH, (IH (add_section "" item)), add_section_onto.
    now rewrite append_assoc.
Qed.

Lemma add_pr_onto (release_body : string) (pr : merged_pr) :
  add_pr release_body pr = (release_body ++ add_pr "" pr)%string.
Proof.
  unfold add_pr.
  rewrite fold_sections_onto, (fold_sections_onto _ ("" ++ _)).
  now rewrite !append_assoc.
Qed.

Lemma fold_prs_onto (merged_prs : list merged_pr) :
  forall release_body : string,
    fold_left add_pr merged_prs release_body =
      (release_body ++ fold_left add_pr merged_prs "")%string.
Proof.
  induction merged_prs as [|pr merged_prs IH]; intros release_body;
    cbn [fold_left].
  - now rewrite append_empty_r.
  - rewrite IH, (IH (add_pr "" pr)), add_pr_onto. now rewrite append_assoc.
Qed.

(** X7.  Composing is additive: the document of two lists of dictionaries
    put one after the other is the document of the first followed by the
    document of the second, whatever the dictionaries hold. *)
Theorem render_merged_prs_app (first second : list merged_pr) :
  render_merged_prs (first ++ second) =
    (render_merged_prs first ++ render_merged_prs second)%string.
Proof.
  unfold render_merged_prs. rewrite fold_left_app. apply fold_prs_onto.
Qed.

Lemma fold_sections_empty (items : release_notes_t) :
  Forall (fun item => snd item = []) items ->
  forall release_body : string,
    fold_left add_section items release_body = release_body.
Proof.
  induction 1 as [|[section bullets] items Hitem _ IH]; intros release_body;
    cbn [fold_left].
  - reflexivity.
  - simpl in Hitem. subst bullets. apply IH.
Qed.

(** X8.  A pull request without any bullet still gets its heading: when
    every category of every dictionary is empty, the document is the
    sequence of the heading lines [## ticket - title] and nothing else. *)
Theorem render_merged_prs_without_bullets (merged_prs : list merged_pr) :
  Forall (fun pr => Forall (fun item => snd item = []) (release_notes pr))
    merged_prs ->
  render_merged_prs merged_prs =
    joined
      (map (fun pr => "## " ++ ticket_no pr ++ " - " ++ title pr ++ newline)%string
         merged_prs).
Proof.
  unfold render_merged_prs.
  induction 1 as [|pr merged_prs Hpr _ IH]; cbn [fold_left map joined].
  - reflexivity.
  - rewrite fold_prs_onto, IH. f_equal.
    unfold add_pr. now rewrite (fold_sections_empty _ Hpr).
Qed.

Lemma render_merged_prs_without_bullets_witness :
  render_merged_prs
    [mk_merged "February" fresh_release_notes "FEB-2"
       (mk_datetime 2024 2 1 0 0 0 0)] =
    Sample.terminated ["## FEB-2 - February"].
Proof.
  apply (render_merged_prs_without_bullets
           [mk_merged "February" fresh_release_notes "FEB-2"
              (mk_datetime 2024 2 1 0 0 0 0)]).
  repeat constructor.
Defined.

End ComposerMore.

(** ** More on the fetcher *)

Section FetchMore.

Variable strptime : string -> result naive_datetime.
Variable requests_get : nat -> response.

Lemma pages_loop_endless (since : datetime) :
  (forall n,
      1 <= n ->
      exists items,
        items <> []
        /\ body_json (requests_get n) = Some (JsonArray items)
        /\ Forall (readable strptime since) items) ->
  forall (fuel page : nat) (acc : list merged_pr) (req : list nat),
    1 <= page ->
    pages_loop strptime requests_get fuel since page acc req = None.
Proof.
  intros Hpages. induction fuel as [|fuel IH]; intros page acc req Hpage.
  - reflexivity.
  - destruct (Hpages page Hpage) as (items & Hne & Hbody & Hread).
    rewrite (pages_loop_step strptime requests_get _ _ _ _ _ _ Hne Hbody).
    destruct (visit_prs_readable strptime since items Hread acc) as [acc' Hv].
    rewrite Hv. apply IH. lia.
Qed.

(** X9.  Nothing but an empty page, or an exception, ends the loop: if
    every page holds at least one pull request and none of them makes the
    visit raise, the call does not return, however long it runs. *)
Theorem get_merged_prs_never_returns (since : datetime) :
  (forall n,
      1 <= n ->
      exists items,
        items <> []
        /\ body_json (requests_get n) = Some (JsonArray items)
        /\ Forall (readable strptime since) items) ->
  forall fuel : nat, get_merged_prs strptime requests_get fuel since = None.
Proof.
  intros Hpages fuel. unfold get_merged_prs.
  now apply pages_loop_endless.
Qed.

Lemma pages_loop_object (fuel : nat) (since : datetime) (page : nat)
  (acc : list merged_pr) (req : list nat)
  (member : string * string) (members : list (string * string)) :
  body_json (requests_get page) = Some (JsonObject (member :: members)) ->
  pages_loop strptime requests_get (S fuel) since page acc req =
    Some (req ++ [page], Raise TypeError).
Proof.
  intros Hbody. simpl. unfold response_json. now rewrite Hbody.
Qed.

(** X10.  An error document instead of a page is not told apart from a
    listing: the loop iterates over it and raises [TypeError], and what the
    earlier pages gave is lost with it. *)
Theorem get_merged_prs_error_document (since : datetime) (fuel : nat)
  (pages : list (list PullRequest))
  (member : string * string) (members : list (string * string)) :
  served requests_get 1 pages ->
  body_json (requests_get (1 + length pages)) =
    Some (JsonObject (member :: members)) ->
  length pages < fuel ->
  exists requested e,
    get_merged_prs strptime requests_get fuel since =
      Some (requested, Raise e)
    /\ (Forall (readable strptime since) (concat pages) ->
        requested = seq 1 (S (length pages)) /\ e = TypeError).
Proof.
  intros Hserved Hbody Hfuel. unfold get_merged_prs.
  replace fuel with (length pages + S (fuel - length pages - 1)) by lia.
  pose proof (pages_loop_run strptime requests_get since
                (S (fuel - length pages - 1)) pages 1 [] [] Hserved) as Hrun.
  destruct (visit_prs strptime since (concat pages) []) as [merged|e] eqn:Hv.
  - rewrite Hrun, (pages_loop_object _ _ _ _ _ _ _ Hbody). cbn [app].
    exists (seq 1 (length pages) ++ [1 + length pages]), TypeError.
    split; [reflexivity|]. intros _. split; [|reflexivity].
    now rewrite seq_S.
  - destruct Hrun as (k & _ & Hloop). rewrite Hloop.
    eexists. exists e. split; [reflexivity|].
    intros Hread.
    destruct (visit_prs_readable strptime since (concat pages) Hread [])
      as [merged Hok].
    congruence.
Qed.

(** X11.  A pull request that qualifies and has no description ([null])
    stops the whole call with [AttributeError], as soon as everything before
    it has been visited. *)
Theorem get_merged_prs_null_description (since : datetime) (fuel : nat)
  (pages : list (list PullRequest))
  (before after : list PullRequest) (pr : PullRequest) :
  served requests_get 1 pages ->
  concat pages = before ++ pr :: after ->
  Forall (readable strptime since) before ->
  qualifies strptime since pr = true ->
  pr_body pr = None ->
  length pages <= fuel ->
  exists requested,
    get_merged_prs strptime requests_get fuel since =
      Some (requested, Raise AttributeError).
Proof.
  intros Hserved Hconcat Hbefore Hq Hbody Hfuel.
  apply get_merged_prs_raise with (pages := pages); try assumption.
  rewrite Hconcat. apply visit_prs_first_raise; [assumption|].
  intros acc. unfold visit_pr. unfold qualifies in Hq.
  destruct (parse_merged_at strptime pr) as [[merged|]|]; try discriminate.
  cbn [bind].
  destruct (later_than merged since) as [[|]|]; try discriminate.
  simpl. rewrite Hbody. reflexivity.
Qed.

(** X12.  A pull request that qualifies and whose description makes the
    ticket extractor raise [IndexError] stops the whole call with that
    exception: one description that ends on the ticket heading costs the
    release notes of every pull request. *)
Theorem get_merged_prs_ticket_error (since : datetime) (fuel : nat)
  (pages : list (list PullRequest))
  (before after : list PullRequest) (pr : PullRequest) (body : string) :
  served requests_get 1 pages ->
  concat pages = before ++ pr :: after ->
  Forall (readable strptime since) before ->
  qualifies strptime since pr = true ->
  pr_body pr = Some body ->
  extract_jira_ticket_no body = Raise IndexError ->
  length pages <= fuel ->
  exists requested,
    get_merged_prs strptime requests_get fuel since =
      Some (requested, Raise IndexError).
Proof.
  intros Hserved Hconcat Hbefore Hq Hbody Hticket Hfuel.
  apply get_merged_prs_raise with (pages := pages); try assumption.
  rewrite Hconcat. apply visit_prs_first_raise; [assumption|].
  intros acc. unfold visit_pr. unfold qualifies in Hq.
  destruct (parse_merged_at strptime pr) as [[merged|]|]; try discriminate.
  cbn [bind].
  destruct (later_than merged since) as [[|]|]; try discriminate.
  simpl. rewrite Hbody. simpl.
  rewrite extract_changelog_closed_form. simpl. now rewrite Hticket.
Qed.

Lemma pages_loop_requests (since : datetime) :
  forall (fuel page : nat) (acc : list merged_pr) (req log : list nat)
         (out : result (list merged_pr)),
    pages_loop strptime requests_get fuel since page acc req = Some (log, out) ->
    exists k, k < fuel /\ log = req ++ seq page (S k).
Proof.
  induction fuel as [|fuel IH]; intros page acc req log out; simpl.
  - discriminate.
  - destruct (response_json (requests_get page)) as [v|e];
      [|intros H; inversion H; subst; exists 0; split; [lia | reflexivity]].
    destruct (json_truthy v); simpl;
      [|intros H; inversion H; subst; exists 0; split; [lia | reflexivity]].
    destruct (for_pr_in strptime since v acc) as [acc'|e];
      [|intros H; inversion H; subst; exists 0; split; [lia | reflexivity]].
    intros Hloop. destruct (IH _ _ _ _ _ Hloop) as (k & Hk & Hlog).
    exists (S k). split; [lia|].
    rewrite Hlog, <- app_assoc. cbn [seq app]. now rewrite Nat.add_1_r.
Qed.

(** X13.  Whenever the call comes back, with a list or with an exception,
    the pages it asked for are 1, 2, ..., k for some k: no page is skipped
    and none is asked for twice. *)
Theorem get_merged_prs_requests_in_order (since : datetime) (fuel : nat)
  (requested : list nat) (outcome : result (list merged_pr)) :
  get_merged_prs strptime requests_get fuel since =
    Some (requested, outcome) ->
  exists k, k < fuel /\ requested = seq 1 (S k).
Proof.
  intros Hrun. apply (pages_loop_requests since _ _ _ _ _ _ Hrun).
Qed.

Lemma lex_compare_gt_trans (a : list nat) :
  forall b c : list nat,
    lex_compare a b = Gt -> lex_compare b c = Gt -> lex_compare a c = Gt.
Proof.
  induction a as [|x a IH]; intros [|y b] [|z c]; simpl; try discriminate;
    try reflexivity.
  destruct (Nat.compare_spec x y) as [Hxy|Hxy|Hxy]; try discriminate;
    destruct (Nat.compare_spec y z) as [Hyz|Hyz|Hyz]; try discriminate;
    intros Hab Hbc.
  - subst. rewrite Nat.compare_refl. now apply (IH b c).
  - subst y. now rewrite (proj2 (Nat.compare_gt_iff x z)).
  - subst z. now rewrite (proj2 (Nat.compare_gt_iff x y)).
  - rewrite (proj2 (Nat.compare_gt_iff x z)); [reflexivity | lia].
Qed.

(** X14.  A later cutoff keeps less: what qualifies after [later] also
    qualifies after any cutoff that [later] is later than, so filtering with
    the earlier cutoff first loses nothing of the later selection. *)
Theorem later_cutoff_keeps_less (since later : naive_datetime)
  (prs : list PullRequest) :
  datetime_gt later since = true ->
  (forall pr,
      qualifies strptime (Naive later) pr = true ->
      qualifies strptime (Naive since) pr = true)
  /\ filter (qualifies strptime (Naive later)) prs =
       filter (qualifies strptime (Naive later))
         (filter (qualifies strptime (Naive since)) prs).
Proof.
  intros Hlater.
  assert (Hmono : forall pr,
             qualifies strptime (Naive later) pr = true ->
             qualifies strptime (Naive since) pr = true).
  { intros pr. unfold qualifies.
    destruct (parse_merged_at strptime pr) as [[merged|]|]; try discriminate.
    cbn [later_than]. unfold datetime_gt in *.
    destruct (lex_compare (datetime_fields merged) (datetime_fields later))
      eqn:Hm; try discriminate.
    destruct (lex_compare (datetime_fields later) (datetime_fields since))
      eqn:Hl; try discriminate.
    intros _. now rewrite (lex_compare_gt_trans _ _ _ Hm Hl). }
  split; [exact Hmono|].
  induction prs as [|pr prs IH]; simpl; [reflexivity|].
  destruct (qualifies strptime (Naive since) pr) eqn:Hs; simpl.
  - now rewrite IH.
  - destruct (qualifies strptime (Naive later) pr) eqn:Hl; [|exact IH].
    rewrite (Hmono pr Hl) in Hs. discriminate.
Qed.

(** X18.  When the remote end sends [pages] and then an empty page, the
    call comes back; a list it returns holds one dictionary for each pull
    request of the concatenated pages whose [merged_at] is there and later
    than the cutoff, in the order received, and nothing else.  It returns a
    list whenever no pull request makes the decoder, the comparison or an
    extractor raise.  A pull request that is not merged, or was merged at
    the very time of the cutoff, is not kept. *)
Theorem get_merged_prs_keeps_later_merges (since : datetime) (fuel : nat)
  (pages : list (list PullRequest)) :
  served requests_get 1 pages ->
  body_json (requests_get (1 + length pages)) = Some (JsonArray []) ->
  length pages < fuel ->
  (exists requested outcome,
      get_merged_prs strptime requests_get fuel since =
        Some (requested, outcome)
      /\ (forall merged,
            outcome = Ok merged ->
            Forall2 (describes strptime)
              (filter (qualifies strptime since) (concat pages)) merged)
      /\ (Forall (readable strptime since) (concat pages) ->
          exists merged, outcome = Ok merged))
  /\ (forall pr, pr_merged_at pr = None -> qualifies strptime since pr = false)
  /\ (forall pr merged_at,
        parse_merged_at strptime pr = Ok (Some merged_at) ->
        qualifies strptime (Naive merged_at) pr = false).
Proof.
  intros Hserved Hlast Hfuel. split; [|split].
  - destruct (get_merged_prs_paged strptime requests_get since fuel pages _
                Hserved Hlast eq_refl Hfuel) as (requested & Hrun & _ & _).
    exists requested, (visit_prs strptime since (concat pages) []).
    split; [exact Hrun|]. split.
    + intros merged Hvisit.
      destruct (visit_prs_kept _ _ _ _ _ Hvisit) as (es & Hout & Hall).
      now subst merged.
    + intros Hreadable. now apply visit_prs_readable.
  - intros pr Hnull. unfold qualifies, parse_merged_at. now rewrite Hnull.
  - intros pr merged_at Hparse. unfold qualifies. rewrite Hparse.
    cbn [later_than]. apply datetime_gt_irrefl.
Qed.

End FetchMore.

Lemma get_merged_prs_never_returns_witness :
  get_merged_prs Sample.strptime Fixture.same_page_forever 40
    Sample.mid_january = None.
Proof.
  apply (get_merged_prs_never_returns Sample.strptime
           Fixture.same_page_forever Sample.mid_january).
  intros n _. exists [Sample.pr1]. split; [discriminate|].
  split; [reflexivity|].
  constructor; [|constructor]. split; [|split].
  - eexists. reflexivity.
  - intros merged _. eexists. reflexivity.
  - intros _. do 2 eexists. split; reflexivity.
Defined.

Lemma get_merged_prs_error_document_witness :
  exists requested e,
    get_merged_prs Sample.strptime Fixture.rate_limited 5 Sample.mid_january =
      Some (requested, Raise e)
    /\ (Forall (readable Sample.strptime Sample.mid_january)
          (concat [[Sample.pr1]]) ->
        requested = seq 1 (S (length [[Sample.pr1]])) /\ e = TypeError).
Proof.
  apply (get_merged_prs_error_document Sample.strptime Fixture.rate_limited
           Sample.mid_january 5 [[Sample.pr1]]
           ("message", "API rate limit exceeded") []).
  - simpl. repeat split. discriminate.
  - reflexivity.
  - simpl. lia.
Defined.

Lemma get_merged_prs_null_description_witness :
  exists requested,
    get_merged_prs Sample.strptime
      (Sample.serve [[Sample.pr1; Fixture.pr_no_description; Sample.pr2]])
      3 Sample.mid_january = Some (requested, Raise AttributeError).
Proof.
  apply (get_merged_prs_null_description Sample.strptime
           (Sample.serve [[Sample.pr1; Fixture.pr_no_description; Sample.pr2]])
           Sample.mid_january 3
           [[Sample.pr1; Fixture.pr_no_description; Sample.pr2]]
           [Sample.pr1] [Sample.pr2] Fixture.pr_no_description).
  - simpl. repeat split. discriminate.
  - reflexivity.
  - constructor; [|constructor]. split; [|split].
    + eexists. reflexivity.
    + intros merged _. eexists. reflexivity.
    + intros _. do 2 eexists. split; reflexivity.
  - reflexivity.
  - reflexivity.
  - simpl. lia.
Defined.

Lemma get_merged_prs_ticket_error_witness :
  exists requested,
    get_merged_prs Sample.strptime
      (Sample.serve [[Sample.pr1]; [Fixture.pr_ticket_missing]])
      3 Sample.mid_january = Some (requested, Raise IndexError).
Proof.
  apply (get_merged_prs_ticket_error Sample.strptime
           (Sample.serve [[Sample.pr1]; [Fixture.pr_ticket_missing]])
           Sample.mid_january 3
           [[Sample.pr1]; [Fixture.pr_ticket_missing]]
           [Sample.pr1] [] Fixture.pr_ticket_missing
           Sample.body_marker_at_end).
  - simpl. repeat split; discriminate.
  - reflexivity.
  - constructor; [|constructor]. split; [|split].
    + eexists. reflexivity.
    + intros merged _. eexists. reflexivity.
    + intros _. do 2 eexists. split; reflexivity.
  - reflexivity.
  - reflexivity.
  - reflexivity.
  - simpl. lia.
Defined.

Lemma get_merged_prs_requests_in_order_witness :
  exists k, k < 5 /\ [1; 2; 3] = seq 1 (S k).
Proof.
  apply (get_merged_prs_requests_in_order Sample.strptime
           (Sample.serve [[Sample.pr1]; [Sample.pr2]]) Sample.mid_january 5
           [1; 2; 3] (Ok [Sample.merged1; Sample.merged2])).
  reflexivity.
Defined.

Lemma later_cutoff_keeps_less_witness :
  (forall pr,
      qualifies Sample.strptime Fixture.february pr = true ->
      qualifies Sample.strptime Sample.mid_january pr = true)
  /\ filter (qualifies Sample.strptime Fixture.february)
       [Sample.pr_january; Sample.pr1; Sample.pr2] =
     filter (qualifies Sample.strptime Fixture.february)
       (filter (qualifies Sample.strptime Sample.mid_january)
          [Sample.pr_january; Sample.pr1; Sample.pr2]).
Proof.
  apply (later_cutoff_keeps_less Sample.strptime
           (mk_datetime 2024 1 15 0 0 0 0) (mk_datetime 2024 2 1 12 0 0 0)
           [Sample.pr_january; Sample.pr1; Sample.pr2]).
  reflexivity.
Defined.

Lemma get_merged_prs_keeps_later_merges_witness :
  (exists requested outcome,
      get_merged_prs Sample.strptime
        (Sample.serve
           [[Sample.pr_january; Sample.pr_february; Sample.pr_unmerged]])
        2 Sample.mid_january = Some (requested, outcome)
      /\ (forall merged,
            outcome = Ok merged ->
            Forall2 (describes Sample.strptime)
              (filter (qualifies Sample.strptime Sample.mid_january)
                 (concat
                    [[Sample.pr_january; Sample.pr_february;
                      Sample.pr_unmerged]]))
              merged)
      /\ (Forall (readable Sample.strptime Sample.mid_january)
            (concat
               [[Sample.pr_january; Sample.pr_february; Sample.pr_unmerged]]) ->
          exists merged, outcome = Ok merged))
  /\ get_merged_prs Sample.strptime
       (Sample.serve
          [[Sample.pr_january; Sample.pr_february; Sample.pr_unmerged]])
       2 Sample.mid_january =
     Some ([1; 2],
           Ok [mk_merged "February" fresh_release_notes "FEB-2"
                 (mk_datetime 2024 2 1 0 0 0 0)]).
Proof.
  split.
  - refine (proj1 (get_merged_prs_keeps_later_merges Sample.strptime
                    (Sample.serve
                       [[Sample.pr_january; Sample.pr_february;
                         Sample.pr_unmerged]])
                    Sample.mid_january 2
                    [[Sample.pr_january; Sample.pr_february;
                      Sample.pr_unmerged]] _ _ _)).
    + simpl. repeat split. discriminate.
    + reflexivity.
    + simpl. lia.
  - reflexivity.
Defined.

(** ** The token, the update and the script *)

Section PublishFacts.

Import Publish.

Lemma prefix_drop (a : string) :
  forall s : string,
    prefix a s = true -> s = (a ++ Py.drop (String.length a) s)%string.
Proof.
  induction a as [|c a IH]; intros s; simpl.
  - reflexivity.
  - destruct s as [|d s]; [discriminate|]. cbn [prefix].
    destruct (ascii_dec c d) as [Hcd|]; [|discriminate].
    intros H. subst d. now rewrite <- (IH s H).
Qed.

Lemma take_while_split (p : ascii -> bool) (s : string) :
  s = (Py.take_while p s ++ Py.drop_while p s)%string
  /\ string_forall p (Py.take_while p s) = true.
Proof.
  induction s as [|c s [Heq Hall]]; simpl; [now split|].
  destruct (p c) eqn:Hc; simpl.
  - rewrite Hc, Hall. split; [now rewrite <- Heq | reflexivity].
  - now split.
Qed.

Lemma drop_while_dot (s : string) :
  Py.drop_while Py.is_dot s = ""
  \/ exists rest, Py.drop_while Py.is_dot s = (newline ++ rest)%string.
Proof.
  induction s as [|c s IH]; simpl; [now left|].
  destruct (Py.is_dot c) eqn:Hc; [exact IH|].
  right. exists s. unfold Py.is_dot in Hc.
  apply negb_false_iff, Nat.eqb_eq in Hc.
  unfold newline. simpl. f_equal.
  now rewrite <- Hc, ascii_nat_embedding.
Qed.

(** What a successful search found, and where. *)
Lemma token_regex_search_found (output : string) :
  forall group : string,
    token_regex_search output = Some group ->
    exists before c after,
      output = (before ++ "Token:" ++ String c (group ++ after))%string
      /\ Py.is_space c = true
      /\ string_forall Py.is_dot group = true
      /\ (after = "" \/ exists rest, after = (newline ++ rest)%string)
      /\ forall i,
          i < String.length before -> token_at (Py.drop i output) = None.
Proof.
  induction output as [|x output IH]; intros group; simpl.
  - unfold token_at. simpl. discriminate.
  - destruct (token_at (String x output)) as [found|] eqn:Hat.
    + intros H. inversion H; subst found. clear H.
      unfold token_at in Hat.
      destruct (prefix "Token:" (String x output)) eqn:Hprefix;
        [|discriminate].
      apply prefix_drop in Hprefix.
      change (String.length "Token:") with 6 in Hprefix.
      destruct (Py.drop 6 (String x output)) as [|c rest]; [discriminate|].
      destruct (Py.is_space c) eqn:Hc; [|discriminate].
      inversion Hat; subst group. clear Hat.
      destruct (take_while_split Py.is_dot rest) as [Hsplit Hall].
      exists "", c, (Py.drop_while Py.is_dot rest).
      split; [|split; [exact Hc | split; [exact Hall | split]]].
      * rewrite <- Hsplit. exact Hprefix.
      * apply drop_while_dot.
      * simpl. intros i Hi. lia.
    + intros Hrest.
      destruct (IH _ Hrest) as (before & c & after & Heq & Hc & Hall & Hafter
                                & Hleft).
      exists (String x before), c, after.
      split; [|split; [exact Hc | split; [exact Hall | split]]].
      * cbn [append]. f_equal. exact Heq.
      * exact Hafter.
      * simpl. intros [|i] Hi; [exact Hat|]. apply Hleft. lia.
Qed.

(** X15.  A token set in the environment is returned as it stands, even
    an empty one.  Without it, a token is returned only if [gh] is there and
    ended with code 0, and it is what follows the leftmost [Token:] and one
    white space on the error stream, up to the end of that line. *)
Theorem get_github_token_source (environ : list (string * string))
  (which_gh : bool) (gh_auth_status : completed_process) (token : string) :
  (environ_get "GITHUB_TOKEN" environ = Some token ->
   get_github_token environ which_gh gh_auth_status = Token token)
  /\ (environ_get "GITHUB_TOKEN" environ = None ->
      get_github_token environ which_gh gh_auth_status = Token token ->
      which_gh = true
      /\ returncode gh_auth_status = 0
      /\ exists before c after,
          stderr gh_auth_status =
            (before ++ "Token:" ++ String c (token ++ after))%string
          /\ Py.is_space c = true
          /\ string_forall Py.is_dot token = true
          /\ (after = "" \/ exists rest, after = (newline ++ rest)%string)
          /\ forall i,
              i < String.length before ->
              token_at (Py.drop i (stderr gh_auth_status)) = None).
Proof.
  unfold get_github_token. split.
  - intros Henv. now rewrite Henv.
  - intros Henv. rewrite Henv.
    destruct which_gh; simpl; [|discriminate].
    destruct (returncode gh_auth_status =? 0) eqn:Hcode; simpl;
      [|discriminate].
    destruct (token_regex_search (stderr gh_auth_status)) as [group|] eqn:Hs;
      [|discriminate].
    intros H. inversion H; subst group.
    split; [reflexivity|]. split; [now apply Nat.eqb_eq|].
    now apply token_regex_search_found.
Qed.

Variable strptime : string -> result naive_datetime.
Variable fromisoformat : string -> result datetime.
Variable requests_get : nat -> response.


(** X17.  In [gh_releases.py] the ticket of a kept pull request is the
    second line of its description, whatever the first line is, and a kept
    pull request with a one-line description at the head of the first page
    stops the fetch with [IndexError]. *)
Theorem gh_get_merged_prs_ticket (since : datetime) (pr : PullRequest)
  (body : string) :
  qualifies strptime since pr = true ->
  pr_body pr = Some body ->
  (forall (first second : string) (rest : list string)
          (acc : list GhReleasesFetch.merged_pr),
      Py.splitlines body = first :: second :: rest ->
      exists notes,
        extract_changelog body = Ok notes
        /\ GhReleasesFetch.visit_pr strptime since acc pr =
             Ok (acc ++ [GhReleasesFetch.mk_merged (pr_title pr) notes second]))
  /\ (forall (only : string) (items : list PullRequest) (fuel : nat),
      Py.splitlines body = [only] ->
      body_json (requests_get 1) = Some (JsonArray (pr :: items)) ->
      GhReleasesFetch.get_merged_prs strptime requests_get (S fuel) since =
        Some ([1], Raise IndexError)).
Proof.
  intros Hq Hbody. unfold qualifies in Hq.
  destruct (parse_merged_at strptime pr) as [[merged|]|] eqn:Hparse;
    try discriminate.
  destruct (later_than merged since) as [[|]|] eqn:Hlater; try discriminate.
  split.
  - intros first second rest acc Hlines.
    eexists. split; [apply extract_changelog_closed_form|].
    unfold GhReleasesFetch.visit_pr. rewrite Hparse. cbn [bind].
    rewrite Hlater. simpl. rewrite Hbody. simpl.
    rewrite extract_changelog_closed_form. simpl.
    unfold GhReleases.extract_jira_ticket_no. rewrite Hlines. reflexivity.
  - intros only items fuel Hlines Hpage.
    unfold GhReleasesFetch.get_merged_prs.
    cbn [GhReleasesFetch.pages_loop]. unfold response_json. rewrite Hpage.
    cbn [json_truthy negb GhReleasesFetch.for_pr_in GhReleasesFetch.visit_prs].
    unfold GhReleasesFetch.visit_pr. rewrite Hparse. cbn [bind].
    rewrite Hlater. simpl. rewrite Hbody. simpl.
    rewrite extract_changelog_closed_form. simpl.
    unfold GhReleases.extract_jira_ticket_no. rewrite Hlines. reflexivity.
Qed.

End PublishFacts.

Lemma get_github_token_source_witness :
  Publish.get_github_token [("GITHUB_TOKEN", "")] false
    (Publish.mk_completed 1 "") = Publish.Token ""
  /\ (true = true
      /\ Publish.returncode (Publish.mk_completed 0 Fixture.gh_output) = 0
      /\ exists before c after,
          Publish.stderr (Publish.mk_completed 0 Fixture.gh_output) =
            (before ++ "Token:" ++ String c ("gho_abc" ++ after))%string
          /\ Py.is_space c = true
          /\ string_forall Py.is_dot "gho_abc" = true
          /\ (after = "" \/ exists rest, after = (newline ++ rest)%string)
          /\ forall i,
              i < String.length before ->
              Publish.token_at
                (Py.drop i
                   (Publish.stderr (Publish.mk_completed 0 Fixture.gh_output)))
              = None).
Proof.
  split.
  - apply (proj1 (get_github_token_source [("GITHUB_TOKEN", "")] false
                    (Publish.mk_completed 1 "") "")).
    reflexivity.
  - apply (proj2 (get_github_token_source [("HOME", "/root")] true
                    (Publish.mk_completed 0 Fixture.gh_output) "gho_abc"));
      reflexivity.
Defined.


Lemma gh_get_merged_prs_ticket_witness :
  (exists notes,
      extract_changelog Sample.body_no_marker = Ok notes
      /\ GhReleasesFetch.visit_pr Sample.strptime Sample.mid_january []
           (mk_pull "No marker" (Some Sample.body_no_marker)
              (Some "2024-03-04T00:00:00Z")) =
         Ok ([] ++ [GhReleasesFetch.mk_merged "No marker" notes "- a bullet"]))
  /\ GhReleasesFetch.get_merged_prs Sample.strptime
       (Sample.serve [[Fixture.pr_one_line]]) 1 Sample.mid_january =
     Some ([1], Raise IndexError).
Proof.
  split.
  - apply (proj1 (gh_get_merged_prs_ticket Sample.strptime
                    (Sample.serve []) Sample.mid_january
                    (mk_pull "No marker" (Some Sample.body_no_marker)
                       (Some "2024-03-04T00:00:00Z"))
                    Sample.body_no_marker eq_refl eq_refl)
             "Summary of the change" "- a bullet" [] []).
    reflexivity.
  - apply (proj2 (gh_get_merged_prs_ticket Sample.strptime
                    (Sample.serve [[Fixture.pr_one_line]]) Sample.mid_january
                    Fixture.pr_one_line "Bump the version" eq_refl eq_refl)
             "Bump the version" [] 0);
      reflexivity.
Defined.
